(** * csv_to_excel_converter: a shallow embedding of [process_folder_csvs]

    The converter lists the [*.csv] files of a folder, keeps the first three
    in sorted order, and writes each one as a sheet of a single workbook,
    after adding a [seqno] column in front and two timestamp columns behind.

    The embedding follows [csv_to_excel_converter.py] statement by statement.
    Everything the script obtains from outside (the file system, the clock,
    the CSV reader, the workbook writer) is gathered in a [World] record; the
    script itself is a function from a [World] and a folder path to the
    lines it prints, the file-system events it causes and the way it ends.

    A character is an 8-bit code point ([ascii]); a [str] is a [string]. *)

From Stdlib Require Import Bool Arith Lia List String Ascii ZArith.
From Stdlib Require Import DecimalString Sorting.Sorted Sorting.Permutation.
Import ListNotations.

Local Open Scope list_scope.
Local Open Scope string_scope.

(* ------------------------------------------------------------------ *)
(** ** Strings: slices, search, decimal numbers *)

Module Str.

(** [s[:n]] *)
Fixpoint take (n : nat) (s : string) : string :=
  match n, s with
  | S n', String c r => String c (take n' r)
  | _, _ => EmptyString
  end.

(** [s[n:]] *)
Fixpoint drop (n : nat) (s : string) : string :=
  match n, s with
  | S n', String _ r => drop n' r
  | _, _ => s
  end.

(** [s.rfind(c)], with [None] for Python's [-1]. *)
Fixpoint rfind (c : ascii) (s : string) : option nat :=
  match s with
  | EmptyString => None
  | String a r =>
      match rfind c r with
      | Some i => Some (S i)
      | None => if Ascii.eqb a c then Some 0 else None
      end
  end.

(** [c in s] *)
Fixpoint mem (c : ascii) (s : string) : bool :=
  match s with
  | EmptyString => false
  | String a r => Ascii.eqb a c || mem c r
  end.

(** [s.startswith(c)] and [s.endswith(t)] *)
Definition starts_with_char (c : ascii) (s : string) : bool :=
  match s with
  | String a _ => Ascii.eqb a c
  | EmptyString => false
  end.

Definition ends_with (t s : string) : bool :=
  String.eqb (drop (String.length s - String.length t) s) t
  && Nat.leb (String.length t) (String.length s).

(** [str(n)] for a non-negative integer. *)
Definition of_nat (n : nat) : string := NilZero.string_of_uint (Nat.to_uint n).

(** One decimal digit, and the zero-padded fields of [strftime]. *)
Definition digit (d : nat) : ascii := ascii_of_nat (48 + d mod 10).

Definition pad2 (n : nat) : string :=
  String (digit (n / 10)) (String (digit n) EmptyString).

Definition pad4 (n : nat) : string :=
  String (digit (n / 1000)) (String (digit (n / 100)) (pad2 n)).

Definition is_digit (c : ascii) : bool :=
  Nat.leb 48 (nat_of_ascii c) && Nat.leb (nat_of_ascii c) 57.

End Str.

(* ------------------------------------------------------------------ *)
(** ** [os.path]: [join], [basename], [splitext] (POSIX flavour) *)

Module Path.

Definition sep : ascii := "/"%char.
Definition extsep : ascii := "."%char.

(** [os.path.join(a, b)] *)
Definition join (a b : string) : string :=
  if Str.starts_with_char sep b then b
  else if (String.eqb a EmptyString || Str.ends_with "/" a)%bool then a ++ b
  else a ++ "/" ++ b.

(** [i = p.rfind('/') + 1] *)
Definition after_sep (p : string) : nat :=
  match Str.rfind sep p with
  | Some i => S i
  | None => 0
  end.

(** [os.path.basename(p)]: [p[i:]] *)
Definition basename (p : string) : string := Str.drop (after_sep p) p.

(** The [while filenameIndex < dotIndex] loop of [splitext]: is there a
    character other than a dot among the [fuel] characters from index [i]? *)
Fixpoint skip_leading_dots (fuel i : nat) (p : string) : bool :=
  match fuel with
  | 0 => false
  | S fuel' =>
      match String.get i p with
      | Some c =>
          if Ascii.eqb c extsep then skip_leading_dots fuel' (S i) p else true
      | None => true
      end
  end.

(** [os.path.splitext(p)] *)
Definition splitext (p : string) : string * string :=
  match Str.rfind extsep p with
  | Some dotIndex =>
      if Nat.leb (after_sep p) dotIndex
         && skip_leading_dots (dotIndex - after_sep p) (after_sep p) p
      then (Str.take dotIndex p, Str.drop dotIndex p)
      else (p, EmptyString)
  | None => (p, EmptyString)
  end.

End Path.

(* ------------------------------------------------------------------ *)
(** ** [datetime] and the two [strftime] formats *)

Record DateTime := mkDateTime {
  year : nat; month : nat; day : nat;
  hour : nat; minute : nat; second : nat
}.

(** The ranges of a [datetime] object. *)
Definition valid_datetime (t : DateTime) : Prop :=
  1 <= year t < 100 * 100 /\ 1 <= month t <= 12 /\ 1 <= day t <= 31 /\
  hour t < 24 /\ minute t < 60 /\ second t < 60.

(** [%I]: the hour on the 12-hour clock, 01 to 12. *)
Definition hour12 (h : nat) : nat :=
  if Nat.eqb (h mod 12) 0 then 12 else h mod 12.

(** [%p] *)
Definition am_pm (h : nat) : string := if Nat.ltb h 12 then "AM" else "PM".

(** [strftime("%Y%m%d-%H%M%S")] *)
Definition strftime_file (t : DateTime) : string :=
  Str.pad4 (year t) ++ Str.pad2 (month t) ++ Str.pad2 (day t) ++ "-" ++
  Str.pad2 (hour t) ++ Str.pad2 (minute t) ++ Str.pad2 (second t).

(** [strftime("%Y-%m-%d %I:%M%p")] *)
Definition strftime_column (t : DateTime) : string :=
  Str.pad4 (year t) ++ "-" ++ Str.pad2 (month t) ++ "-" ++ Str.pad2 (day t) ++
  " " ++ Str.pad2 (hour12 (hour t)) ++ ":" ++ Str.pad2 (minute t) ++
  am_pm (hour t).

(* ------------------------------------------------------------------ *)
(** ** Exceptions *)

(** The classes the [except] clauses tell apart; every exception of the
    model is an [Exception]. *)
Inductive exn_class :=
  | FileNotFoundError
  | EmptyDataError
  | ValueError
  | OtherException.

Record exn := mkExn { cls : exn_class; message : string }.

(* ------------------------------------------------------------------ *)
(** ** [pandas.DataFrame]: named columns in order, and a row count *)

Inductive cell :=
  | CInt (z : Z)
  | CFloat (mantissa exponent : Z)
  | CStr (s : string)
  | CBool (b : bool)
  | CNaN.

Record DataFrame := mkDataFrame {
  columns : list (string * list cell);
  nrows : nat
}.

Module DF.

Definition names (df : DataFrame) : list string := map fst (columns df).

(** [name in df.columns] *)
Definition has_column (name : string) (df : DataFrame) : bool :=
  existsb (String.eqb name) (names df).

(** [range(1, n + 1)] as a column of integers. *)
Definition range_from_1 (n : nat) : list cell :=
  map (fun i => CInt (Z.of_nat i)) (seq 1 n).

(** [df.insert(0, name, values)]: refuses a name that is already a column
    ([allow_duplicates] is off), otherwise puts the column in front. *)
Definition insert0 (name : string) (values : list cell) (df : DataFrame)
  : exn + DataFrame :=
  if has_column name df then
    inl (mkExn ValueError ("cannot insert " ++ name ++ ", already exists"))
  else
    inr (mkDataFrame ((name, values) :: columns df) (nrows df)).

(** [df[name] = scalar]: an existing column of that name is overwritten in
    place, otherwise a new column is appended; the scalar fills every row. *)
Definition setitem (name : string) (scalar : cell) (df : DataFrame) : DataFrame :=
  let filled := repeat scalar (nrows df) in
  if has_column name df then
    mkDataFrame
      (map (fun col => if String.eqb name (fst col) then (fst col, filled) else col)
           (columns df))
      (nrows df)
  else
    mkDataFrame (List.app (columns df) [(name, filled)]) (nrows df).

End DF.

(* ------------------------------------------------------------------ *)
(** ** The workbook held by [pd.ExcelWriter] *)

(** A sheet has a title and the tables written into it, in the order of
    the writes.  [to_excel] writes every table from cell A1 on, so a later
    table covers the cells of an earlier table of the same sheet wherever
    the two overlap; [sheet_grid] below gives the cells the sheet then
    holds.  A sheet into which nothing was written has no table. *)
Record Sheet := mkSheet { title : string; tables : list DataFrame }.

Definition Workbook := list Sheet.

(** [df.to_excel(writer, sheet_name=name, index=False)] when nothing
    raises: a title the writer already holds is written into again, any
    other title makes a new sheet behind the existing ones. *)
Fixpoint add_table (book : Workbook) (name : string) (df : DataFrame) : Workbook :=
  match book with
  | [] => [mkSheet name [df]]
  | sh :: rest =>
      if String.eqb (title sh) name
      then mkSheet (title sh) (List.app (tables sh) [df]) :: rest
      else sh :: add_table rest name df
  end.

Definition sheet_names (book : Workbook) : list string := map title book.

(** [book.create_sheet()], which [to_excel] calls for a title the writer
    does not hold, before it sets the title: an empty sheet behind the
    others under the default title openpyxl picks ([Sheet], [Sheet1],
    ...), which is one no sheet of the workbook has; a title in use adds
    nothing. *)
Definition create_sheet (book : Workbook) (default_title : string) : Workbook :=
  if existsb (String.eqb default_title) (sheet_names book) then book
  else List.app book [mkSheet default_title []].

(** What a [to_excel] that raises leaves behind in the workbook. *)
Inductive leftover :=
  (** it raised before a sheet was looked up or made *)
  | NoSheet
  (** it made a sheet and raised on setting its title: the sheet stays,
      empty, under its default title *)
  | BlankSheet (default_title : string)
  (** it had its sheet and raised on a cell: [part], the cells written
      until then, stays in that sheet *)
  | PartSheet (sheet_title : string) (part : DataFrame).

Definition after_failure (leaves : leftover) (book : Workbook) : Workbook :=
  match leaves with
  | NoSheet => book
  | BlankSheet default_title => create_sheet book default_title
  | PartSheet sheet_title part => add_table book sheet_title part
  end.

(** How a [to_excel] can depart from writing the table under the title
    it was asked for. *)
Inductive deviation :=
  (** it raises [e] *)
  | Raises (e : exn) (leaves : leftover)
  (** it writes the table, but openpyxl has altered the title of the new
      sheet: a title that equals one in use when letter case is ignored
      gets a number appended *)
  | Retitled (given : string).

(** The cells of a sheet: the values the writer has been handed for
    them, row by row, every row from column A on. *)
Definition Grid := list (list cell).

(** [index=False]: the first row holds the column names, the following
    rows the values, a missing value as a cell without content; nothing
    is written for an entry a column lacks. *)
Definition header_row (df : DataFrame) : list cell := map CStr (DF.names df).

Definition data_row (df : DataFrame) (i : nat) : list cell :=
  flat_map (fun col => match nth_error (snd col) i with
                       | Some c => [c]
                       | None => []
                       end)
           (columns df).

Definition grid_of (df : DataFrame) : Grid :=
  header_row df :: map (data_row df) (seq 0 (nrows df)).

(** Writing [new] over [old] from cell A1: the cells of [new] replace
    those of [old] at their places, the other cells of [old] stay. *)
Fixpoint overlay_row (new old : list cell) : list cell :=
  match new, old with
  | [], _ => old
  | c :: new', [] => c :: new'
  | c :: new', _ :: old' => c :: overlay_row new' old'
  end.

Fixpoint overlay (new old : Grid) : Grid :=
  match new, old with
  | [], _ => old
  | r :: new', [] => r :: new'
  | r :: new', o :: old' => overlay_row r o :: overlay new' old'
  end.

(** The cells a sheet holds after the writes it received. *)
Definition sheet_grid (sh : Sheet) : Grid :=
  fold_left (fun g df => overlay (grid_of df) g) (tables sh) [].

(* ------------------------------------------------------------------ *)
(** ** The outside world *)

Record World := mkWorld {
  (** [os.path.exists] *)
  path_exists : string -> bool;
  (** [glob.glob(pattern)], in the order the directory listing gives *)
  glob : string -> list string;
  (** the successive readings of [datetime.now()] *)
  now : nat -> DateTime;
  (** [pd.read_csv(path)] *)
  read_csv : string -> exn + DataFrame;
  (** [pd.ExcelWriter(path, engine='openpyxl')]: [Some e] when it raises *)
  writer_open : string -> option exn;
  (** [df.to_excel(writer, sheet_name=..., index=False)]: [None] when it
      writes the table under the title asked for *)
  sheet_error : string -> DataFrame -> option deviation;
  (** leaving the [with] block, which saves the workbook: [Some e] when it raises *)
  writer_close : string -> Workbook -> option exn
}.

(** What the script does to the file system. *)
Inductive fs_event :=
  | Created (path : string)
  | Saved (path : string) (book : Workbook).

Definition event_path (e : fs_event) : string :=
  match e with
  | Created p => p
  | Saved p _ => p
  end.

(** How a call ends: [outcome = None] is a normal return, [Some e] an
    exception that reaches the caller. *)
Record Run := mkRun {
  outcome : option exn;
  stdout : list string;
  events : list fs_event
}.

(* ------------------------------------------------------------------ *)
(** ** [list.sort()] on paths *)

(** Strings compare by code point, so a list of strings has one sorted
    arrangement; insertion sort produces it. *)
Fixpoint insert_sorted (x : string) (l : list string) : list string :=
  match l with
  | [] => [x]
  | y :: r => if String.leb x y then x :: l else y :: insert_sorted x r
  end.

Fixpoint sort (l : list string) : list string :=
  match l with
  | [] => []
  | x :: r => insert_sorted x (sort r)
  end.

(* ------------------------------------------------------------------ *)
(** ** The script *)

(** The variables that change while the [with] block runs: the lines
    printed so far, how often the clock has been read, and the workbook. *)
Record State := mkState {
  out : list string;
  ticks : nat;
  book : Workbook
}.

Definition print (line : string) (st : State) : State :=
  mkState (List.app (out st) [line]) (ticks st) (book st).

Definition newline : string := String (ascii_of_nat 10) EmptyString.

(** Line 36: the line printed when more than three files were found. *)
Definition cap_message (found : nat) : string :=
  newline ++ "Using first 3 CSV files (found " ++ Str.of_nat found ++ " total)".

(** Lines 65 and 68: the sheet name of an input file. *)
Definition sheet_name_of (csv_file : string) : string :=
  Str.take 31 (fst (Path.splitext (Path.basename csv_file))).

(** Lines 56 to 62: the table as it is handed to [to_excel]. *)
Definition add_timestamps (timestamp : string) (df : DataFrame) : DataFrame :=
  DF.setitem "updt_ts" (CStr timestamp)
    (DF.setitem "create_ts" (CStr timestamp) df).

(** Lines 52 to 73, the body of the [try]: [inl (e, st')] when a statement
    raises [e] with the state [st'] reached until then. *)
Definition try_body (w : World) (csv_file : string) (st : State)
  : (exn * State) + State :=
  match read_csv w csv_file with
  | inl e => inl (e, st)
  | inr df =>
      match DF.insert0 "seqno" (DF.range_from_1 (nrows df)) df with
      | inl e => inl (e, st)
      | inr df =>
          let current_time := now w (ticks st) in
          let st := mkState (out st) (S (ticks st)) (book st) in
          let timestamp := strftime_column current_time in
          let df := add_timestamps timestamp df in
          let sheet_name := sheet_name_of csv_file in
          let success :=
            "Successfully added '" ++ Path.basename csv_file
            ++ "' to sheet '" ++ sheet_name ++ "' with "
            ++ Str.of_nat (nrows df)
            ++ " rows and timestamp: " ++ timestamp in
          match sheet_error w sheet_name df with
          | Some (Raises e leaves) =>
              inl (e, mkState (out st) (ticks st)
                              (after_failure leaves (book st)))
          | Some (Retitled given) =>
              let st := mkState (out st) (ticks st)
                                (add_table (book st) given df) in
              inr (print success st)
          | None =>
              let st := mkState (out st) (ticks st)
                                (add_table (book st) sheet_name df) in
              inr (print success st)
          end
      end
  end.

(** Lines 75 to 80, the three [except] clauses in their order. *)
Definition except (csv_file : string) (e : exn) (st : State) : State :=
  match cls e with
  | FileNotFoundError => print ("Error: File '" ++ csv_file ++ "' not found") st
  | EmptyDataError => print ("Error: File '" ++ csv_file ++ "' is empty") st
  | _ => print ("Error processing '" ++ csv_file ++ "': " ++ message e) st
  end.

(** One turn of the [for] loop. *)
Definition process_file (w : World) (st : State) (csv_file : string) : State :=
  match try_body w csv_file st with
  | inl (e, st') => except csv_file e st'
  | inr st' => st'
  end.

Definition excel_path_of (w : World) (folder_path : string) : string :=
  Path.join folder_path ("test-data-load-" ++ strftime_file (now w 0) ++ ".xlsx").

(** Lines 28 to 37: the files kept for processing. *)
Definition retained (csv_files : list string) : list string :=
  let csv_files := sort csv_files in
  if Nat.ltb 3 (List.length csv_files) then firstn 3 csv_files else csv_files.

(** Lines 30 to 36: what is printed before the workbook is opened. *)
Definition discovery_report (csv_files : list string) : list string :=
  let csv_files := sort csv_files in
  List.app
    (("Found " ++ Str.of_nat (List.length csv_files) ++ " CSV files:")
       :: map (fun f => "  - " ++ Path.basename f) csv_files)
    (if Nat.ltb 3 (List.length csv_files)
     then [cap_message (List.length csv_files)]
     else []).

(** The state in which the [with] block is left. *)
Definition after_loop (w : World) (csv_files : list string) : State :=
  fold_left (process_file w) (retained csv_files)
            (mkState (discovery_report csv_files) 1 []).

Definition process_folder_csvs (w : World) (folder_path : string) : Run :=
  if negb (path_exists w folder_path) then
    mkRun None ["Error: Folder '" ++ folder_path ++ "' does not exist"] []
  else
    let csv_pattern := Path.join folder_path "*.csv" in
    let csv_files := glob w csv_pattern in
    if Nat.eqb (List.length csv_files) 0 then
      mkRun None ["No CSV files found in folder: " ++ folder_path] []
    else
      let excel_path := excel_path_of w folder_path in
      match writer_open w excel_path with
      | Some e => mkRun (Some e) (discovery_report csv_files) []
      | None =>
          let st := after_loop w csv_files in
          match writer_close w excel_path (book st) with
          | Some e => mkRun (Some e) (out st) [Created excel_path]
          | None =>
              mkRun None
                    (List.app (out st) ["Excel file created at: " ++ excel_path])
                    [Created excel_path; Saved excel_path (book st)]
          end
      end.

(* ------------------------------------------------------------------ *)
(** ** Views used by the statements *)

(** The table after line 56, when [insert] accepts the new column. *)
Definition with_seqno (df : DataFrame) : DataFrame :=
  mkDataFrame (("seqno", DF.range_from_1 (nrows df)) :: columns df) (nrows df).

(** The table after line 62. *)
Definition augmented (timestamp : string) (df : DataFrame) : DataFrame :=
  add_timestamps timestamp (with_seqno df).

(** Every table written into a workbook, with the title of the sheet it
    was written into. *)
Definition written (b : Workbook) : list (string * DataFrame) :=
  flat_map (fun sh => map (pair (title sh)) (tables sh)) b.

(** The values of every column called [name]. *)
Definition columns_named (name : string) (df : DataFrame) : list (list cell) :=
  map snd (filter (fun col => String.eqb name (fst col)) (columns df)).

(** The sheets and the tables of the workbook a run has saved. *)
Definition saved_sheets (r : Run) : list Sheet :=
  flat_map (fun e => match e with Saved _ b => b | Created _ => [] end) (events r).

Definition saved_tables (r : Run) : list (string * DataFrame) :=
  written (saved_sheets r).

(** The files a run of the script finds in [folder_path]. *)
Definition discovered (w : World) (folder_path : string) : list string :=
  glob w (Path.join folder_path "*.csv").

(** The order of [list.sort()] on strings. *)
Definition path_le (a b : string) : Prop := String.leb a b = true.

(** A file that goes through a turn of the loop without an exception: it
    loads, its table has no [seqno] column, and the writer takes the sheet
    under the name it is given. *)
Definition accepted (w : World) (csv_file : string) : Prop :=
  exists df,
    read_csv w csv_file = inr df /\
    DF.has_column "seqno" df = false /\
    forall ts, sheet_error w (sheet_name_of csv_file) (augmented ts df) = None.

(* ------------------------------------------------------------------ *)
(** ** Recognisers for the two timestamp layouts *)

Definition digit_value (c : ascii) : nat := nat_of_ascii c - 48.

Definition two_digit_value (hi lo : ascii) : nat :=
  10 * digit_value hi + digit_value lo.

(** Eight digits, a dash, six digits: [YYYYMMDD-HHMMSS]. *)
Definition is_file_timestamp (s : string) : bool :=
  match list_ascii_of_string s with
  | [y1; y2; y3; y4; m1; m2; d1; d2; dash; h1; h2; n1; n2; s1; s2] =>
      forallb Str.is_digit [y1; y2; y3; y4; m1; m2; d1; d2; h1; h2; n1; n2; s1; s2]
      && Ascii.eqb dash "-"
  | _ => false
  end.

(** [YYYY-MM-DD hh:mmAM] or [...PM]: four, two and two digits with dashes,
    one space, a two-digit hour from 01 to 12, a colon, a two-digit minute
    below 60, then [AM] or [PM] in capitals with nothing in between. *)
Definition is_column_timestamp (s : string) : bool :=
  match list_ascii_of_string s with
  | [y1; y2; y3; y4; dash1; m1; m2; dash2; d1; d2; space; h1; h2; colon;
     n1; n2; p; m] =>
      forallb Str.is_digit [y1; y2; y3; y4; m1; m2; d1; d2; h1; h2; n1; n2]
      && Ascii.eqb dash1 "-" && Ascii.eqb dash2 "-"
      && Ascii.eqb space " " && Ascii.eqb colon ":"
      && (Ascii.eqb p "A" || Ascii.eqb p "P") && Ascii.eqb m "M"
      && Nat.leb 1 (two_digit_value h1 h2) && Nat.leb (two_digit_value h1 h2) 12
      && Nat.ltb (two_digit_value n1 n2) 60
  | _ => false
  end.

(** The column layout with the hour written without padding, the reading
    of the layout in which 9 o'clock is [9], not [09]. *)
Definition unpadded_hour_layout (t : DateTime) : string :=
  Str.pad4 (year t) ++ "-" ++ Str.pad2 (month t) ++ "-" ++ Str.pad2 (day t) ++
  " " ++ Str.of_nat (hour12 (hour t)) ++ ":" ++ Str.pad2 (minute t) ++
  am_pm (hour t).

(* ------------------------------------------------------------------ *)
(** ** Sample worlds *)

Module Sample.

(** 2024-01-01, 09:05:07. *)
Definition morning : DateTime := mkDateTime 2024 1 1 9 5 7.

(** The table of [employees.csv] in the test suite. *)
Definition employees : DataFrame :=
  mkDataFrame
    [("Name", [CStr "Alice"; CStr "Bob"; CStr "Charlie"]);
     ("Age", [CInt 25; CInt 30; CInt 35]);
     ("City", [CStr "New York"; CStr "Los Angeles"; CStr "Chicago"])]
    3.

Definition products : DataFrame :=
  mkDataFrame
    [("Product", [CStr "Laptop"; CStr "Mouse"; CStr "Keyboard"]);
     ("Price", [CFloat 99999 (-2); CFloat 2550 (-2); CFloat 7500 (-2)]);
     ("Stock", [CInt 10; CInt 50; CInt 25])]
    3.

Definition sales : DataFrame :=
  mkDataFrame
    [("Date", [CStr "2024-01-01"; CStr "2024-01-02"; CStr "2024-01-03"]);
     ("Sales", [CInt 1000; CInt 1500; CInt 1200]);
     ("Region", [CStr "North"; CStr "South"; CStr "East"])]
    3.

Definition extra : DataFrame :=
  mkDataFrame [("Col1", [CInt 1; CInt 2]); ("Col2", [CInt 3; CInt 4])] 2.

(** A table whose header already has a [seqno] column. *)
Definition numbered : DataFrame :=
  mkDataFrame [("seqno", [CInt 7; CInt 9]); ("item", [CStr "a"; CStr "b"])] 2.

(** A table whose header already has a [create_ts] column. *)
Definition stamped : DataFrame :=
  mkDataFrame [("create_ts", [CStr "old"; CStr "older"])] 2.

Definition empty_data : exn :=
  mkExn EmptyDataError "No columns to parse from file".

Definition no_visible_sheet : exn :=
  mkExn OtherException "At least one sheet must be visible".

Fixpoint lookup (path : string) (files : list (string * (exn + DataFrame)))
  : exn + DataFrame :=
  match files with
  | [] => inl (mkExn FileNotFoundError "No such file or directory")
  | (p, r) :: rest => if String.eqb p path then r else lookup path rest
  end.

(** The folder [/data] holding [files], its clock standing at [morning];
    the writer accepts every sheet and saves every workbook but one
    without sheets. *)
Definition world (files : list (string * (exn + DataFrame))) : World :=
  mkWorld
    (fun p => String.eqb p "/data")
    (fun pattern => if String.eqb pattern "/data/*.csv" then map fst files else [])
    (fun _ => morning)
    (fun p => lookup p files)
    (fun _ => None)
    (fun _ _ => None)
    (fun _ b => match b with [] => Some no_visible_sheet | _ => None end).

(** The folder of the test suite, listed out of order. *)
Definition test_folder : World :=
  world [("/data/sales.csv", inr sales);
         ("/data/employees.csv", inr employees);
         ("/data/products.csv", inr products)].

(** Five files, as in [test_more_than_three_files]. *)
Definition five_files : World :=
  world [("/data/sales.csv", inr sales);
         ("/data/extra2.csv", inr extra);
         ("/data/employees.csv", inr employees);
         ("/data/products.csv", inr products);
         ("/data/extra1.csv", inr extra)].

(** A folder whose only CSV file is empty. *)
Definition only_empty : World := world [("/data/blank.csv", inl empty_data)].

(** A folder whose only CSV file has a [seqno] column. *)
Definition only_numbered : World := world [("/data/numbered.csv", inr numbered)].

(** A numbered file between two ordinary ones. *)
Definition numbered_between : World :=
  world [("/data/a.csv", inr extra);
         ("/data/b.csv", inr numbered);
         ("/data/c.csv", inr extra)].

(** A folder whose only CSV file has a [create_ts] column. *)
Definition only_stamped : World := world [("/data/stamped.csv", inr stamped)].


(** One file, [a:b.csv], and a writer that refuses every title that
    holds a colon, leaving the sheet it has made for it under the default
    title. *)
Definition colon_world : World :=
  mkWorld (fun _ => true) (fun _ => ["/data/a:b.csv"]) (fun _ => morning)
          (fun _ => inr extra) (fun _ => None)
          (fun name _ =>
             if Str.mem ":" name
             then Some (Raises
                          (mkExn ValueError "Invalid character : found in sheet title")
                          (BlankSheet "Sheet"))
             else None)
          (fun _ _ => None).

(** Two files whose names agree on their first 31 characters. *)
Definition long_names : World :=
  world [("/data/quarterly_sales_report_for_the_region_north.csv", inr sales);
         ("/data/quarterly_sales_report_for_the_region_south.csv", inr extra)].

(** Two files whose names differ by letter case only; the writer alters
    the title of the second sheet. *)
Definition letter_case : World :=
  mkWorld (fun _ => true) (fun _ => ["/data/abc.csv"; "/data/ABC.csv"])
          (fun _ => morning) (fun _ => inr extra) (fun _ => None)
          (fun name _ => if String.eqb name "abc" then Some (Retitled "abc1") else None)
          (fun _ _ => None).

(** The test folder with the clock standing one second later. *)
Definition a_second_later : World :=
  mkWorld (path_exists test_folder) (glob test_folder)
          (fun _ => mkDateTime 2024 1 1 9 5 8) (read_csv test_folder)
          (writer_open test_folder) (sheet_error test_folder)
          (writer_close test_folder).

End Sample.

(* ------------------------------------------------------------------ *)
(** ** The entry point: [input(...).strip()] *)

Module Text.

(** [c.isspace()] for a character below 256: tab to carriage return, the
    four separators 28 to 31, the space, NEL and the no-break space. *)
Definition is_space (c : ascii) : bool :=
  let n := nat_of_ascii c in
  (Nat.leb 9 n && Nat.leb n 13) || (Nat.leb 28 n && Nat.leb n 32)
  || Nat.eqb n 133 || Nat.eqb n 160.

(** [s.lstrip()] *)
Fixpoint lstrip (s : string) : string :=
  match s with
  | String c r => if is_space c then lstrip r else s
  | EmptyString => EmptyString
  end.

(** [s.rstrip()] *)
Fixpoint rstrip (s : string) : string :=
  match s with
  | EmptyString => EmptyString
  | String c r =>
      match rstrip r with
      | EmptyString => if is_space c then EmptyString else String c EmptyString
      | r' => String c r'
      end
  end.

(** [s.strip()] *)
Definition strip (s : string) : string := rstrip (lstrip s).

(** A string of whitespace only. *)
Fixpoint all_space (s : string) : bool :=
  match s with
  | EmptyString => true
  | String c r => is_space c && all_space r
  end.

Definition starts_with_space (s : string) : bool :=
  match s with
  | String c _ => is_space c
  | EmptyString => false
  end.

Fixpoint ends_with_space (s : string) : bool :=
  match s with
  | EmptyString => false
  | String c EmptyString => is_space c
  | String _ r => ends_with_space r
  end.

End Text.

Definition prompt : string := "Enter the folder path containing CSV files: ".

(** Lines 85 to 90: [typed] is the line [input] returns; the result is the
    prompt [input] writes and the run on the stripped path. *)
Definition main (w : World) (typed : string) : string * Run :=
  let folder_path := Text.strip typed in
  (prompt, process_folder_csvs w folder_path).

(* ------------------------------------------------------------------ *)
(** ** Further views used by the statements *)

(** The world [w] with another directory listing. *)
Definition with_listing (w : World) (listing : string -> list string) : World :=
  mkWorld (path_exists w) listing (now w) (read_csv w)
          (writer_open w) (sheet_error w) (writer_close w).

(** The world [w] with another [read_csv]. *)
Definition with_reader (w : World) (reader : string -> exn + DataFrame) : World :=
  mkWorld (path_exists w) (glob w) (now w) reader
          (writer_open w) (sheet_error w) (writer_close w).

(** A table whose columns all have one entry per row. *)
Definition rectangular (df : DataFrame) : Prop :=
  Forall (fun col => List.length (snd col) = nrows df) (columns df).

(** The retained files whose turn reaches line 59: they load and their
    table has no [seqno] column. *)
Definition reaches_clock (w : World) (csv_file : string) : bool :=
  match read_csv w csv_file with
  | inr df => negb (DF.has_column "seqno" df)
  | inl _ => false
  end.

(* ------------------------------------------------------------------ *)
(** ** [test_csv_to_excel.py]: [test_dataframe_structure] *)

(** [l[i]] with Python's negative indices; [None] is [IndexError]. *)
Definition py_get {A : Type} (l : list A) (i : Z) : option A :=
  let n := Z.of_nat (List.length l) in
  let j := if Z.ltb i 0 then (n + i)%Z else i in
  if Z.leb 0 j && Z.ltb j n then nth_error l (Z.to_nat j) else None.

(** How a test method ends: all assertions hold, one fails, or a
    statement raises. *)
Inductive test_result :=
  | Passed
  | Failed
  | Errored (e : exn).

Definition index_error : exn := mkExn OtherException "index out of bounds".

(** [self.assertEqual(columns[i], expected)], then the rest of the test. *)
Definition assert_name (got : option string) (expected : string)
           (continue : test_result) : test_result :=
  match got with
  | None => Errored index_error
  | Some name => if String.eqb name expected then continue else Failed
  end.

(** Lines 202 to 219 of the test file, from the table that
    [pd.read_csv(self.csv_files[0])] returns. *)
Definition test_dataframe_structure (df : DataFrame) : test_result :=
  let original_columns := List.length (columns df) in
  let original_rows := nrows df in
  match DF.insert0 "seqno" (DF.range_from_1 (nrows df)) df with
  | inl e => Errored e
  | inr df =>
      let df := DF.setitem "create_ts" (CStr "2024-01-01 10:30AM") df in
      let df := DF.setitem "updt_ts" (CStr "2024-01-01 10:30AM") df in
      if negb (Nat.eqb (List.length (columns df)) (original_columns + 3)) then Failed
      else if negb (Nat.eqb (nrows df) original_rows) then Failed
      else
        assert_name (py_get (DF.names df) 0) "seqno"
          (assert_name (py_get (DF.names df) (-2)) "create_ts"
             (assert_name (py_get (DF.names df) (-1)) "updt_ts" Passed))
  end.

(* ================================================================== *)
(** * Properties *)

(* ------------------------------------------------------------------ *)
(** ** Slices and search *)

Section StrFacts.

Lemma append_nil_r (s : string) : s ++ "" = s.
Proof. induction s as [|c s IH]; simpl; [reflexivity | now rewrite IH]. Qed.

Lemma append_assoc (s t u : string) : (s ++ t) ++ u = s ++ (t ++ u).
Proof. induction s as [|c s IH]; simpl; [reflexivity | now rewrite IH]. Qed.

Lemma length_append (s t : string) :
  String.length (s ++ t) = String.length s + String.length t.
Proof. induction s as [|c s IH]; simpl; [reflexivity | now rewrite IH]. Qed.


Lemma take_app (s t : string) : Str.take (String.length s) (s ++ t) = s.
Proof. induction s as [|c s IH]; simpl; [now destruct t | now rewrite IH]. Qed.

Lemma drop_app (s t : string) : Str.drop (String.length s) (s ++ t) = t.
Proof. induction s as [|c s IH]; simpl; [now destruct t | exact IH]. Qed.

Lemma drop_0 (s : string) : Str.drop 0 s = s.
Proof. now destruct s. Qed.

Lemma drop_drop (a b : nat) (s : string) :
  Str.drop a (Str.drop b s) = Str.drop (a + b) s.
Proof.
  revert s; induction b as [|b IH]; intros s.
  - rewrite drop_0, Nat.add_0_r; reflexivity.
  - rewrite Nat.add_succ_r. destruct s as [|c s]; simpl.
    + now destruct a.
    + apply IH.
Qed.

Lemma ends_with_app (s t : string) : Str.ends_with t (s ++ t) = true.
Proof.
  unfold Str.ends_with. rewrite length_append.
  replace (String.length s + String.length t - String.length t)
    with (String.length s) by lia.
  rewrite drop_app, String.eqb_refl. simpl. apply Nat.leb_le; lia.
Qed.

Lemma ends_with_inv (t s : string) :
  Str.ends_with t s = true ->
  Str.drop (String.length s - String.length t) s = t /\
  String.length t <= String.length s.
Proof.
  unfold Str.ends_with. intros H. apply andb_true_iff in H as [H1 H2].
  split; [now apply String.eqb_eq | now apply Nat.leb_le].
Qed.

(** A path cannot end in [.xlsx] and in [.csv]. *)
Lemma xlsx_is_not_csv (s : string) :
  Str.ends_with ".xlsx" s = true -> Str.ends_with ".csv" s = false.
Proof.
  intros H. apply ends_with_inv in H as [Hd Hl]. simpl in Hd, Hl.
  destruct (Str.ends_with ".csv" s) eqn:E; [|reflexivity].
  apply ends_with_inv in E as [Ed El]. simpl in Ed, El.
  replace (String.length s - 4) with (1 + (String.length s - 5)) in Ed by lia.
  rewrite <- drop_drop, Hd in Ed. discriminate Ed.
Qed.

Lemma ends_with_slash_inv (a : string) :
  Str.ends_with "/" a = true -> exists a', a = a' ++ "/".
Proof.
  intros H. apply ends_with_inv in H as [Hd Hl]. simpl in Hd, Hl.
  revert Hd Hl. induction a as [|c a IH]; simpl; [lia|]. intros Hd _.
  rewrite Nat.sub_0_r in Hd.
  destruct a as [|c' a].
  - simpl in Hd. exists "". exact Hd.
  - simpl in Hd. destruct IH as [a' Ha'].
    + simpl. rewrite Nat.sub_0_r. exact Hd.
    + simpl; lia.
    + exists (String c a'). simpl. now rewrite <- Ha'.
Qed.

Lemma rfind_none (c : ascii) (s : string) :
  Str.mem c s = false -> Str.rfind c s = None.
Proof.
  induction s as [|a s IH]; simpl; [reflexivity|].
  intros H. apply orb_false_iff in H as [Ha Hs].
  now rewrite (IH Hs), Ha.
Qed.

(** The last occurrence of [c] in [s ++ c :: t] is at [len(s)] when [t]
    holds no [c]. *)
Lemma rfind_last (c : ascii) (s t : string) :
  Str.mem c t = false ->
  Str.rfind c (s ++ String c t) = Some (String.length s).
Proof.
  intros Ht. induction s as [|a s IH]; simpl.
  - now rewrite (rfind_none _ _ Ht), Ascii.eqb_refl.
  - now rewrite IH.
Qed.

Lemma mem_app (c : ascii) (s t : string) :
  Str.mem c (s ++ t) = Str.mem c s || Str.mem c t.
Proof.
  induction s as [|a s IH]; simpl; [reflexivity|].
  now rewrite IH, orb_assoc.
Qed.

End StrFacts.

(* ------------------------------------------------------------------ *)
(** ** Paths *)

Section PathFacts.

Lemma basename_plain (name : string) :
  Str.mem Path.sep name = false -> Path.basename name = name.
Proof.
  intros H. unfold Path.basename, Path.after_sep.
  rewrite (rfind_none _ _ H). apply drop_0.
Qed.

Lemma basename_after_sep (a name : string) :
  Str.mem Path.sep name = false ->
  Path.basename (a ++ String Path.sep name) = name.
Proof.
  intros H. unfold Path.basename, Path.after_sep.
  rewrite (rfind_last _ a name H).
  change (String Path.sep name) with (String Path.sep "" ++ name).
  rewrite <- append_assoc.
  replace (S (String.length a)) with (String.length (a ++ String Path.sep ""))
    by (rewrite length_append; simpl; lia).
  apply drop_app.
Qed.

Lemma no_sep_not_absolute (name : string) :
  Str.mem Path.sep name = false -> Str.starts_with_char Path.sep name = false.
Proof.
  destruct name as [|c r]; simpl; [reflexivity|].
  intros H. now apply orb_false_iff in H as [H _].
Qed.

(** [join] puts the name behind the last separator. *)
Lemma join_shape (a name : string) :
  Str.starts_with_char Path.sep name = false ->
  Path.join a name = name \/ exists a', Path.join a name = a' ++ String Path.sep name.
Proof.
  intros H. unfold Path.join. rewrite H.
  destruct (String.eqb a "") eqn:Ea; simpl.
  - apply String.eqb_eq in Ea. subst a. now left.
  - destruct (Str.ends_with "/" a) eqn:Es.
    + apply ends_with_slash_inv in Es as [a' ->]. right. exists a'.
      now rewrite append_assoc.
    + right. exists a. reflexivity.
Qed.

Lemma basename_join (a name : string) :
  Str.mem Path.sep name = false -> Path.basename (Path.join a name) = name.
Proof.
  intros H.
  destruct (join_shape a name (no_sep_not_absolute _ H)) as [-> | [a' ->]].
  - now apply basename_plain.
  - now apply basename_after_sep.
Qed.

(** [splitext] on a visible [*.csv] name gives back the stem. *)
Lemma splitext_csv (stem : string) :
  stem <> "" ->
  Str.mem Path.sep stem = false ->
  Str.starts_with_char Path.extsep stem = false ->
  Path.splitext (stem ++ ".csv") = (stem, ".csv").
Proof.
  intros Hne Hsep Hdot. unfold Path.splitext.
  change ".csv" with (String Path.extsep "csv").
  rewrite (rfind_last Path.extsep stem "csv" eq_refl).
  assert (Ha : Path.after_sep (stem ++ String Path.extsep "csv") = 0).
  { unfold Path.after_sep. rewrite rfind_none; [reflexivity|].
    rewrite mem_app, Hsep. reflexivity. }
  rewrite Ha, Nat.sub_0_r. simpl Nat.leb.
  destruct stem as [|c r]; [contradiction|].
  simpl in Hdot. simpl. rewrite Hdot. simpl.
  now rewrite take_app, drop_app.
Qed.

Lemma sheet_name_of_csv (dir stem : string) :
  stem <> "" ->
  Str.mem Path.sep stem = false ->
  Str.starts_with_char Path.extsep stem = false ->
  sheet_name_of (Path.join dir (stem ++ ".csv")) = Str.take 31 stem.
Proof.
  intros Hne Hsep Hdot. unfold sheet_name_of.
  rewrite basename_join by (rewrite mem_app, Hsep; reflexivity).
  now rewrite splitext_csv.
Qed.


End PathFacts.

(* ------------------------------------------------------------------ *)
(** ** Tables *)

Section TableFacts.

Lemma insert0_seqno_fresh (df : DataFrame) :
  DF.has_column "seqno" df = false ->
  DF.insert0 "seqno" (DF.range_from_1 (nrows df)) df = inr (with_seqno df).
Proof. intros H. unfold DF.insert0. now rewrite H. Qed.

Lemma insert0_seqno_taken (df : DataFrame) :
  DF.has_column "seqno" df = true ->
  DF.insert0 "seqno" (DF.range_from_1 (nrows df)) df
  = inl (mkExn ValueError "cannot insert seqno, already exists").
Proof. intros H. unfold DF.insert0. now rewrite H. Qed.

Lemma nrows_setitem (name : string) (v : cell) (df : DataFrame) :
  nrows (DF.setitem name v df) = nrows df.
Proof. unfold DF.setitem. now destruct (DF.has_column name df). Qed.

Lemma nrows_augmented (ts : string) (df : DataFrame) :
  nrows (augmented ts df) = nrows df.
Proof. unfold augmented, add_timestamps. now rewrite !nrows_setitem. Qed.

(** Assigning to another name leaves the first column alone. *)
Lemma setitem_keeps_head (name hd_name : string) (v : cell) (vals : list cell)
      (rest : list (string * list cell)) (df : DataFrame) :
  String.eqb name hd_name = false ->
  columns df = (hd_name, vals) :: rest ->
  exists rest', columns (DF.setitem name v df) = (hd_name, vals) :: rest'.
Proof.
  intros Hne Hc. unfold DF.setitem.
  destruct (DF.has_column name df); simpl; rewrite Hc; simpl.
  - rewrite Hne. eauto.
  - eauto.
Qed.

Lemma augmented_head (ts : string) (df : DataFrame) :
  exists rest,
    columns (augmented ts df) = ("seqno", DF.range_from_1 (nrows df)) :: rest.
Proof.
  unfold augmented, add_timestamps.
  destruct (setitem_keeps_head "create_ts" "seqno" (CStr ts)
              (DF.range_from_1 (nrows df)) (columns df) (with_seqno df)
              eq_refl eq_refl) as [r1 H1].
  destruct (setitem_keeps_head "updt_ts" "seqno" (CStr ts)
              (DF.range_from_1 (nrows df)) r1 _ eq_refl H1) as [r2 H2].
  eauto.
Qed.

Lemma has_column_app (name : string) (cols : list (string * list cell))
      (c : string * list cell) (n : nat) :
  DF.has_column name (mkDataFrame (List.app cols [c]) n)
  = DF.has_column name (mkDataFrame cols n) || String.eqb name (fst c).
Proof.
  unfold DF.has_column, DF.names. simpl.
  rewrite map_app, existsb_app. simpl. now rewrite orb_false_r.
Qed.

(** With neither timestamp name taken, three columns are added around the
    original ones. *)
Lemma augmented_fresh (ts : string) (df : DataFrame) :
  DF.has_column "create_ts" df = false ->
  DF.has_column "updt_ts" df = false ->
  columns (augmented ts df)
  = ("seqno", DF.range_from_1 (nrows df))
      :: List.app (columns df)
           [("create_ts", repeat (CStr ts) (nrows df));
            ("updt_ts", repeat (CStr ts) (nrows df))].
Proof.
  intros Hc Hu. unfold augmented, add_timestamps.
  assert (H1 : DF.setitem "create_ts" (CStr ts) (with_seqno df)
               = mkDataFrame
                   (List.app (columns (with_seqno df))
                      [("create_ts", repeat (CStr ts) (nrows df))])
                   (nrows df)).
  { unfold DF.setitem.
    assert (E : DF.has_column "create_ts" (with_seqno df) = false) by exact Hc.
    now rewrite E. }
  rewrite H1. unfold DF.setitem.
  rewrite has_column_app.
  assert (E : DF.has_column "updt_ts"
                 (mkDataFrame (columns (with_seqno df)) (nrows df)) = false)
    by exact Hu.
  rewrite E. simpl. now rewrite <- app_assoc.
Qed.

Lemma range_from_1_length (n : nat) : List.length (DF.range_from_1 n) = n.
Proof. unfold DF.range_from_1. now rewrite length_map, length_seq. Qed.

Lemma range_from_1_nth (n i : nat) :
  i < n -> nth i (DF.range_from_1 n) CNaN = CInt (Z.of_nat i + 1).
Proof.
  intros H. unfold DF.range_from_1.
  rewrite (nth_indep _ CNaN (CInt (Z.of_nat 0))) by (now rewrite length_map, length_seq).
  rewrite (map_nth (fun k => CInt (Z.of_nat k)) (seq 1 n) 0 i).
  rewrite seq_nth by exact H. f_equal. lia.
Qed.

End TableFacts.

(* ------------------------------------------------------------------ *)
(** ** One turn of the loop *)

Section LoopFacts.

Variable w : World.

(** A turn that ends without an exception has loaded a table without a
    [seqno] column, read the clock once and written the augmented table,
    under the name of the file unless the writer has altered the title. *)
Lemma try_body_inr (csv_file : string) (st st' : State) :
  try_body w csv_file st = inr st' ->
  exists df0 stored,
    read_csv w csv_file = inr df0 /\
    DF.has_column "seqno" df0 = false /\
    ticks st' = S (ticks st) /\
    book st' = add_table (book st) stored
                 (augmented (strftime_column (now w (ticks st))) df0) /\
    exists line, out st' = List.app (out st) [line].
Proof.
  unfold try_body. intros H.
  destruct (read_csv w csv_file) as [e|df0]; [discriminate|].
  destruct (DF.has_column "seqno" df0) eqn:Hs.
  - rewrite (insert0_seqno_taken _ Hs) in H. discriminate.
  - rewrite (insert0_seqno_fresh _ Hs) in H.
    fold (augmented (strftime_column (now w (ticks st))) df0) in H.
    destruct (sheet_error w (sheet_name_of csv_file)
                (augmented (strftime_column (now w (ticks st))) df0))
      as [[e l|given]|]; [discriminate | |].
    + exists df0, given. injection H as <-. simpl. repeat split; eauto.
    + exists df0, (sheet_name_of csv_file). injection H as <-. simpl.
      repeat split; eauto.
Qed.

(** A turn that raises has printed nothing yet, and its workbook is as
    before or as the failed [to_excel] has left it. *)
Lemma try_body_inl (csv_file : string) (st st' : State) (e : exn) :
  try_body w csv_file st = inl (e, st') ->
  out st' = out st /\
  exists leaves, book st' = after_failure leaves (book st).
Proof.
  unfold try_body. intros H.
  destruct (read_csv w csv_file) as [e0|df0].
  - injection H as <- <-. split; [reflexivity | now exists NoSheet].
  - destruct (DF.insert0 "seqno" (DF.range_from_1 (nrows df0)) df0) as [e0|df1].
    + injection H as <- <-. split; [reflexivity | now exists NoSheet].
    + destruct (sheet_error w _ _) as [[e0 l|given]|]; try discriminate.
      injection H as <- <-. split; [reflexivity | now exists l].
Qed.

Lemma except_prints (csv_file : string) (e : exn) (st : State) :
  book (except csv_file e st) = book st /\
  exists line, out (except csv_file e st) = List.app (out st) [line].
Proof. unfold except. destruct (cls e); simpl; eauto. Qed.

(** Whatever happens in a turn, it prints exactly one line and no
    exception leaves it. *)
Lemma process_file_prints (st : State) (csv_file : string) :
  exists line, out (process_file w st csv_file) = List.app (out st) [line].
Proof.
  unfold process_file. destruct (try_body w csv_file st) as [[e st']|st'] eqn:H.
  - destruct (try_body_inl _ _ _ _ H) as [Ho _].
    destruct (except_prints csv_file e st') as [_ [line Hl]].
    exists line. now rewrite Hl, Ho.
  - destruct (try_body_inr _ _ _ H) as (df0 & stored & _ & _ & _ & _ & Hl).
    exact Hl.
Qed.

(** What a turn does to the workbook: it writes the table of the file
    into a sheet, or leaves what a failed [to_excel] leaves. *)
Lemma process_file_book (st : State) (csv_file : string) :
  (exists df0 stored,
     read_csv w csv_file = inr df0 /\
     DF.has_column "seqno" df0 = false /\
     book (process_file w st csv_file)
     = add_table (book st) stored
         (augmented (strftime_column (now w (ticks st))) df0)) \/
  (exists leaves,
     book (process_file w st csv_file) = after_failure leaves (book st)).
Proof.
  unfold process_file. destruct (try_body w csv_file st) as [[e st']|st'] eqn:H.
  - right. destruct (try_body_inl _ _ _ _ H) as [_ [l Hb]].
    destruct (except_prints csv_file e st') as [Hb' _]. rewrite Hb'. now exists l.
  - left. destruct (try_body_inr _ _ _ H) as (df0 & stored & Hr & Hs & _ & Hb & _).
    eauto.
Qed.

Lemma written_add_table (b : Workbook) (name : string) (df : DataFrame)
      (x : string * DataFrame) :
  In x (written (add_table b name df)) <-> In x (written b) \/ x = (name, df).
Proof.
  induction b as [|sh rest IH]; simpl.
  - intuition.
  - destruct (String.eqb (title sh) name) eqn:E.
    + apply String.eqb_eq in E. unfold written at 1. simpl.
      fold (written rest). rewrite !in_app_iff, map_app, in_app_iff. simpl.
      rewrite E. intuition.
    + unfold written at 1. simpl. fold (written (add_table rest name df)).
      unfold written at 2. simpl. fold (written rest).
      rewrite !in_app_iff, IH. intuition.
Qed.

Lemma written_create_sheet (b : Workbook) (default_title : string) :
  written (create_sheet b default_title) = written b.
Proof.
  unfold create_sheet. destruct (existsb _ _); [reflexivity|].
  unfold written. rewrite flat_map_app. simpl. now rewrite app_nil_r.
Qed.

(** A table written into a sheet stays in the workbook, under the same
    title, through every later turn. *)
Lemma process_file_keeps (st : State) (csv_file : string) (x : string * DataFrame) :
  In x (written (book st)) -> In x (written (book (process_file w st csv_file))).
Proof.
  intros H.
  destruct (process_file_book st csv_file) as [(df0 & stored & _ & _ & Hb) | [l Hb]];
    rewrite Hb; [apply written_add_table; now left|].
  destruct l; simpl;
    [exact H | now rewrite written_create_sheet | apply written_add_table; now left].
Qed.

Lemma loop_keeps (files : list string) (st : State) (x : string * DataFrame) :
  In x (written (book st)) ->
  In x (written (book (fold_left (process_file w) files st))).
Proof.
  revert st. induction files as [|f rest IH]; intros st H; simpl; [exact H|].
  apply IH. now apply process_file_keeps.
Qed.

End LoopFacts.

(* ------------------------------------------------------------------ *)
(** ** The output path *)

Section OutputPath.

Lemma excel_path_xlsx (w : World) (folder_path : string) :
  Str.ends_with ".xlsx" (excel_path_of w folder_path) = true.
Proof.
  unfold excel_path_of.
  set (ts := strftime_file (now w 0)).
  destruct (join_shape folder_path ("test-data-load-" ++ ts ++ ".xlsx") eq_refl)
    as [-> | [a' ->]].
  - rewrite <- append_assoc. apply ends_with_app.
  - change (String Path.sep ("test-data-load-" ++ ts ++ ".xlsx"))
      with (String Path.sep "test-data-load-" ++ ts ++ ".xlsx").
    rewrite <- !append_assoc. apply ends_with_app.
Qed.

(** The events of a run, whatever the world. *)
Lemma events_shape (w : World) (folder_path : string) :
  let ep := excel_path_of w folder_path in
  let r := process_folder_csvs w folder_path in
  events r = [] \/ events r = [Created ep] \/
  exists b, events r = [Created ep; Saved ep b].
Proof.
  simpl. unfold process_folder_csvs.
  destruct (negb (path_exists w folder_path)); [now left|].
  destruct (Nat.eqb _ 0); [now left|].
  destruct (writer_open w _); [now left|].
  destruct (writer_close w _ _); [right; now left|].
  right; right. eexists. reflexivity.
Qed.

End OutputPath.

(* ------------------------------------------------------------------ *)
(** ** Timestamps *)

Section TimestampFacts.

Lemma digit_code (d : nat) : nat_of_ascii (Str.digit d) = 48 + d mod 10.
Proof.
  unfold Str.digit. apply nat_ascii_embedding.
  pose proof (Nat.mod_upper_bound d 10). lia.
Qed.

Lemma is_digit_digit (d : nat) : Str.is_digit (Str.digit d) = true.
Proof.
  unfold Str.is_digit. rewrite digit_code.
  pose proof (Nat.mod_upper_bound d 10).
  apply andb_true_iff. split; apply Nat.leb_le; lia.
Qed.

Lemma digit_value_digit (d : nat) : digit_value (Str.digit d) = d mod 10.
Proof. unfold digit_value. rewrite digit_code. lia. Qed.

Lemma two_digit_value_pad (n : nat) :
  n < 100 -> two_digit_value (Str.digit (n / 10)) (Str.digit n) = n.
Proof.
  intros H. unfold two_digit_value. rewrite !digit_value_digit.
  assert (n / 10 < 10) by (apply Nat.Div0.div_lt_upper_bound; lia).
  rewrite (Nat.mod_small (n / 10) 10) by assumption.
  symmetry. apply Nat.div_mod_eq.
Qed.

Lemma hour12_range (h : nat) : 1 <= hour12 h <= 12.
Proof.
  unfold hour12. pose proof (Nat.mod_upper_bound h 12).
  destruct (Nat.eqb (h mod 12) 0) eqn:E.
  - lia.
  - apply Nat.eqb_neq in E. lia.
Qed.

Lemma strftime_file_layout (t : DateTime) :
  is_file_timestamp (strftime_file t) = true.
Proof.
  unfold is_file_timestamp, strftime_file, Str.pad4, Str.pad2.
  cbn [String.append list_ascii_of_string forallb].
  rewrite !is_digit_digit. reflexivity.
Qed.

Lemma strftime_column_layout (t : DateTime) :
  minute t < 60 -> is_column_timestamp (strftime_column t) = true.
Proof.
  intros Hm. pose proof (hour12_range (hour t)) as Hh.
  assert (H1 : Nat.leb 1 (hour12 (hour t)) = true) by (apply Nat.leb_le; lia).
  assert (H2 : Nat.leb (hour12 (hour t)) 12 = true) by (apply Nat.leb_le; lia).
  assert (H3 : Nat.ltb (minute t) 60 = true) by (apply Nat.ltb_lt; lia).
  unfold is_column_timestamp, strftime_column, Str.pad4, Str.pad2, am_pm.
  destruct (Nat.ltb (hour t) 12);
    cbn [String.append list_ascii_of_string forallb];
    rewrite !is_digit_digit, !two_digit_value_pad by lia;
    rewrite H1, H2, H3; reflexivity.
Qed.

End TimestampFacts.

(* ------------------------------------------------------------------ *)
(** ** Assignment to a column *)

Section SetitemFacts.

Lemma has_column_filter (name : string) (cols : list (string * list cell)) (n : nat) :
  DF.has_column name (mkDataFrame cols n) = false ->
  filter (fun col => String.eqb name (fst col)) cols = [].
Proof.
  unfold DF.has_column, DF.names. simpl.
  induction cols as [|c r IH]; simpl; [reflexivity|].
  intros H. apply orb_false_iff in H as [Hc Hr]. rewrite Hc. now apply IH.
Qed.

(** After [df[name] = v] there is a column [name], and every column of
    that name holds [v] in each row. *)
Lemma columns_named_setitem_same (name : string) (v : cell) (df : DataFrame) :
  columns_named name (DF.setitem name v df) <> [] /\
  Forall (eq (repeat v (nrows df))) (columns_named name (DF.setitem name v df)).
Proof.
  destruct df as [cols n]. unfold DF.setitem, columns_named.
  destruct (DF.has_column name (mkDataFrame cols n)) eqn:H; simpl.
  - unfold DF.has_column, DF.names in H. simpl in H.
    induction cols as [|c r IH]; simpl in *; [discriminate|].
    destruct (String.eqb name (fst c)) eqn:E; simpl.
    + rewrite E. simpl. split; [discriminate|].
      constructor; [reflexivity|].
      destruct (existsb (String.eqb name) (map fst r)) eqn:Hr.
      * now apply IH.
      * clear IH H. induction r as [|c' r' IH']; simpl; [constructor|].
        simpl in Hr. apply orb_false_iff in Hr as [Hc' Hr'].
        rewrite Hc'. rewrite Hc'. now apply IH'.
    + rewrite E. now apply IH.
  - rewrite filter_app, (has_column_filter _ _ _ H). simpl.
    rewrite String.eqb_refl. simpl. split; [discriminate|].
    constructor; [reflexivity | constructor].
Qed.

(** Assigning to [name] leaves the columns of any other name as they are. *)
Lemma columns_named_setitem_other (name other : string) (v : cell) (df : DataFrame) :
  String.eqb other name = false ->
  columns_named other (DF.setitem name v df) = columns_named other df.
Proof.
  intros Hne. destruct df as [cols n]. unfold DF.setitem, columns_named.
  destruct (DF.has_column name (mkDataFrame cols n)); simpl.
  - induction cols as [|c r IH]; simpl; [reflexivity|].
    destruct (String.eqb name (fst c)) eqn:E; simpl.
    + apply String.eqb_eq in E. rewrite <- E, Hne. exact IH.
    + destruct (String.eqb other (fst c)); simpl; now rewrite IH.
  - rewrite filter_app. simpl. rewrite Hne. now rewrite app_nil_r.
Qed.

(** Assigning to a name that is taken adds no column. *)
Lemma names_setitem_taken (name : string) (v : cell) (df : DataFrame) :
  DF.has_column name df = true ->
  DF.names (DF.setitem name v df) = DF.names df.
Proof.
  intros H. unfold DF.setitem. rewrite H. unfold DF.names. simpl.
  rewrite map_map. apply map_ext. intros c.
  now destruct (String.eqb name (fst c)).
Qed.

Lemma names_setitem_fresh (name : string) (v : cell) (df : DataFrame) :
  DF.has_column name df = false ->
  DF.names (DF.setitem name v df) = List.app (DF.names df) [name].
Proof.
  intros H. unfold DF.setitem. rewrite H. unfold DF.names. simpl.
  now rewrite map_app.
Qed.

(** Both timestamp columns of the augmented table hold the same text. *)
Lemma augmented_timestamps (ts : string) (df : DataFrame) :
  columns_named "create_ts" (augmented ts df) <> [] /\
  columns_named "updt_ts" (augmented ts df) <> [] /\
  Forall (eq (repeat (CStr ts) (nrows df))) (columns_named "create_ts" (augmented ts df)) /\
  Forall (eq (repeat (CStr ts) (nrows df))) (columns_named "updt_ts" (augmented ts df)).
Proof.
  unfold augmented, add_timestamps.
  rewrite (columns_named_setitem_other "updt_ts" "create_ts") by reflexivity.
  destruct (columns_named_setitem_same "create_ts" (CStr ts) (with_seqno df))
    as [Hc1 Hc2].
  destruct (columns_named_setitem_same "updt_ts" (CStr ts)
              (DF.setitem "create_ts" (CStr ts) (with_seqno df))) as [Hu1 Hu2].
  rewrite nrows_setitem in Hu2. simpl in Hc2, Hu2.
  repeat split; assumption.
Qed.

End SetitemFacts.

(* ------------------------------------------------------------------ *)
(** ** Sorting and the cap *)

Section SortFacts.

Lemma insert_sorted_perm (x : string) (l : list string) :
  Permutation (x :: l) (insert_sorted x l).
Proof.
  induction l as [|y r IH]; simpl; [apply Permutation_refl|].
  destruct (String.leb x y); [apply Permutation_refl|].
  eapply perm_trans; [apply perm_swap|]. now apply perm_skip.
Qed.

Lemma sort_perm (l : list string) : Permutation l (sort l).
Proof.
  induction l as [|x r IH]; simpl; [constructor|].
  eapply perm_trans; [apply perm_skip, IH | apply insert_sorted_perm].
Qed.

Lemma sort_length (l : list string) : List.length (sort l) = List.length l.
Proof. symmetry. apply Permutation_length, sort_perm. Qed.

Lemma insert_sorted_hd (x a : string) (l : list string) :
  path_le a x -> HdRel path_le a l -> HdRel path_le a (insert_sorted x l).
Proof.
  intros Hax Hl. destruct l as [|y r]; simpl.
  - now constructor.
  - destruct (String.leb x y); constructor; [exact Hax|].
    now inversion Hl.
Qed.

Lemma insert_sorted_Sorted (x : string) (l : list string) :
  Sorted path_le l -> Sorted path_le (insert_sorted x l).
Proof.
  induction 1 as [|y r Hr IH Hhd]; simpl.
  - repeat constructor.
  - destruct (String.leb x y) eqn:E.
    + constructor; [now constructor | now constructor].
    + constructor; [exact IH|].
      apply insert_sorted_hd; [|exact Hhd].
      destruct (String.leb_total x y) as [H|H]; [congruence | exact H].
Qed.

Lemma sort_Sorted (l : list string) : Sorted path_le (sort l).
Proof.
  induction l as [|x r IH]; simpl; [constructor | now apply insert_sorted_Sorted].
Qed.

Lemma retained_firstn (l : list string) : retained l = firstn 3 (sort l).
Proof.
  unfold retained. destruct (Nat.ltb 3 (List.length (sort l))) eqn:E; [reflexivity|].
  apply Nat.ltb_ge in E. symmetry. now apply firstn_all2.
Qed.

Lemma retained_length (l : list string) :
  List.length (retained l) = Nat.min (List.length l) 3.
Proof. rewrite retained_firstn, length_firstn, sort_length. lia. Qed.

Lemma cap_message_reported (l : list string) :
  3 < List.length l -> In (cap_message (List.length l)) (discovery_report l).
Proof.
  intros H. unfold discovery_report. rewrite sort_length.
  apply Nat.ltb_lt in H. rewrite H. apply in_or_app. right. now left.
Qed.

End SortFacts.

(* ------------------------------------------------------------------ *)
(** ** The loop when every file is accepted *)

Section AcceptedLoop.

Variable w : World.

Lemma process_file_accepted (st : State) (csv_file : string) :
  accepted w csv_file ->
  exists df,
    read_csv w csv_file = inr df /\
    book (process_file w st csv_file)
    = add_table (book st) (sheet_name_of csv_file)
        (augmented (strftime_column (now w (ticks st))) df).
Proof.
  intros (df & Hr & Hs & He). exists df. split; [exact Hr|].
  unfold process_file, try_body. rewrite Hr, (insert0_seqno_fresh _ Hs).
  fold (augmented (strftime_column (now w (ticks st))) df).
  now rewrite He.
Qed.

Lemma sheet_names_add_fresh (b : Workbook) (name : string) (df : DataFrame) :
  ~ In name (sheet_names b) ->
  add_table b name df = List.app b [mkSheet name [df]].
Proof.
  induction b as [|sh rest IH]; simpl; [reflexivity|].
  intros H. destruct (String.eqb (title sh) name) eqn:E.
  - apply String.eqb_eq in E. exfalso. apply H. now left.
  - f_equal. apply IH. intros Hin. apply H. now right.
Qed.

Lemma out_grows (files : list string) (st : State) :
  exists more,
    out (fold_left (process_file w) files st) = List.app (out st) more.
Proof.
  revert st. induction files as [|f rest IH]; intros st; simpl.
  - exists []. now rewrite app_nil_r.
  - destruct (IH (process_file w st f)) as [more Hm].
    destruct (process_file_prints w st f) as [line Hl].
    exists (line :: more). rewrite Hm, Hl, <- app_assoc. reflexivity.
Qed.

(** With distinct sheet names, every accepted file adds one sheet behind
    the others, holding its one table. *)
Lemma loop_accepted (files : list string) (st : State) :
  Forall (accepted w) files ->
  NoDup (List.app (sheet_names (book st)) (map sheet_name_of files)) ->
  exists new_sheets,
    book (fold_left (process_file w) files st) = List.app (book st) new_sheets /\
    sheet_names new_sheets = map sheet_name_of files /\
    Forall (fun sh => exists df, tables sh = [df]) new_sheets.
Proof.
  revert st. induction files as [|f rest IH]; intros st Hacc Hnd; simpl.
  - exists []. rewrite app_nil_r. repeat split. constructor.
  - inversion Hacc as [|? ? Hf Hrest]; subst.
    destruct (process_file_accepted st f Hf) as (df & _ & Hb).
    assert (Hfresh : ~ In (sheet_name_of f) (sheet_names (book st))).
    { intros Hin. simpl in Hnd. apply NoDup_remove_2 in Hnd.
      apply Hnd. apply in_or_app. now left. }
    rewrite (sheet_names_add_fresh _ _ _ Hfresh) in Hb.
    destruct (IH (process_file w st f) Hrest) as (more & Hm & Hn & Ht).
    { rewrite Hb. unfold sheet_names in *. rewrite map_app. simpl.
      rewrite <- app_assoc. simpl. exact Hnd. }
    exists (mkSheet (sheet_name_of f)
              [augmented (strftime_column (now w (ticks st))) df] :: more).
    rewrite Hm, Hb, <- app_assoc. simpl. repeat split.
    + unfold sheet_names in *. simpl. now rewrite Hn.
    + constructor; [eexists; reflexivity | exact Ht].
Qed.

End AcceptedLoop.

(* ------------------------------------------------------------------ *)
(** ** The whole run *)

Section RunFacts.

Variable w : World.

(** The workbook a run saves is the one the loop has built. *)
Lemma saved_sheets_after_loop (folder_path : string) :
  saved_sheets (process_folder_csvs w folder_path) = [] \/
  saved_sheets (process_folder_csvs w folder_path)
  = book (after_loop w (discovered w folder_path)).
Proof.
  unfold saved_sheets, process_folder_csvs, discovered.
  destruct (negb (path_exists w folder_path)); [now left|].
  destruct (Nat.eqb _ 0); [now left|].
  destruct (writer_open w _); [now left|].
  destruct (writer_close w _ _); [now left|].
  right. simpl. now rewrite app_nil_r.
Qed.

(** A run that gets past the two early returns and whose writer opens
    and closes without an exception. *)
Lemma run_completes (folder_path : string) :
  path_exists w folder_path = true ->
  discovered w folder_path <> [] ->
  writer_open w (excel_path_of w folder_path) = None ->
  writer_close w (excel_path_of w folder_path)
    (book (after_loop w (discovered w folder_path))) = None ->
  process_folder_csvs w folder_path
  = mkRun None
      (List.app (out (after_loop w (discovered w folder_path)))
         ["Excel file created at: " ++ excel_path_of w folder_path])
      [Created (excel_path_of w folder_path);
       Saved (excel_path_of w folder_path)
         (book (after_loop w (discovered w folder_path)))].
Proof.
  intros He Hd Ho Hc. unfold process_folder_csvs. fold (discovered w folder_path).
  rewrite He. simpl.
  destruct (discovered w folder_path) as [|f r] eqn:E; [contradiction|].
  simpl. rewrite Ho. rewrite <- E in *. now rewrite Hc.
Qed.

End RunFacts.

(* ------------------------------------------------------------------ *)
(** ** Column names of the augmented table *)

Section AugmentedNames.

Lemma has_column_setitem_other (name other : string) (v : cell) (df : DataFrame) :
  String.eqb other name = false ->
  DF.has_column other (DF.setitem name v df) = DF.has_column other df.
Proof.
  intros Hne. unfold DF.has_column at 1.
  destruct (DF.has_column name df) eqn:H.
  - now rewrite (names_setitem_taken _ _ _ H).
  - rewrite (names_setitem_fresh _ _ _ H), existsb_app. simpl.
    rewrite Hne. now rewrite !orb_false_r.
Qed.

(** [seqno] comes first, the original names follow in their order, and a
    timestamp name is appended only where the table did not have it. *)
Lemma augmented_names (ts : string) (df : DataFrame) :
  DF.names (augmented ts df)
  = "seqno"
      :: List.app (DF.names df)
           (List.app
              (if DF.has_column "create_ts" df then [] else ["create_ts"])
              (if DF.has_column "updt_ts" df then [] else ["updt_ts"])).
Proof.
  unfold augmented, add_timestamps.
  assert (Hc : DF.has_column "create_ts" (with_seqno df)
               = DF.has_column "create_ts" df) by reflexivity.
  assert (Hu : DF.has_column "updt_ts"
                 (DF.setitem "create_ts" (CStr ts) (with_seqno df))
               = DF.has_column "updt_ts" df).
  { now rewrite has_column_setitem_other by reflexivity. }
  destruct (DF.has_column "updt_ts" df) eqn:Eu;
    [rewrite (names_setitem_taken _ _ _ Hu) | rewrite (names_setitem_fresh _ _ _ Hu)];
    (destruct (DF.has_column "create_ts" df) eqn:Ec;
     [rewrite (names_setitem_taken _ _ _ Hc) | rewrite (names_setitem_fresh _ _ _ Hc)]);
    unfold DF.names; simpl; rewrite ?app_nil_r, <- ?app_assoc; reflexivity.
Qed.

End AugmentedNames.

(* ------------------------------------------------------------------ *)
(** ** The clock *)

Section ClockFacts.

Variable w : World.

Lemma ticks_except (csv_file : string) (e : exn) (st : State) :
  ticks (except csv_file e st) = ticks st.
Proof. unfold except. now destruct (cls e). Qed.

(** A turn on a table that takes the [seqno] column reads the clock once,
    whatever the writer does afterwards. *)
Lemma process_file_ticks (st : State) (csv_file : string) (df : DataFrame) :
  read_csv w csv_file = inr df ->
  DF.has_column "seqno" df = false ->
  ticks (process_file w st csv_file) = S (ticks st).
Proof.
  intros Hr Hs. unfold process_file, try_body.
  rewrite Hr, (insert0_seqno_fresh _ Hs).
  destruct (sheet_error w _ _) as [[e l|given]|];
    [now rewrite ticks_except | reflexivity | reflexivity].
Qed.

(** A turn that fails before line 59 does not read the clock. *)
Lemma process_file_no_tick (st : State) (csv_file : string) :
  (forall df, read_csv w csv_file = inr df -> DF.has_column "seqno" df = true) ->
  ticks (process_file w st csv_file) = ticks st.
Proof.
  intros H. unfold process_file, try_body.
  destruct (read_csv w csv_file) as [e|df]; [now rewrite ticks_except|].
  rewrite (insert0_seqno_taken _ (H df eq_refl)). now rewrite ticks_except.
Qed.

Lemma process_file_written (st : State) (csv_file : string) (df : DataFrame) :
  read_csv w csv_file = inr df ->
  DF.has_column "seqno" df = false ->
  sheet_error w (sheet_name_of csv_file)
    (augmented (strftime_column (now w (ticks st))) df) = None ->
  book (process_file w st csv_file)
  = add_table (book st) (sheet_name_of csv_file)
      (augmented (strftime_column (now w (ticks st))) df) /\
  out (process_file w st csv_file)
  = List.app (out st)
      ["Successfully added '" ++ Path.basename csv_file ++ "' to sheet '"
       ++ sheet_name_of csv_file ++ "' with "
       ++ Str.of_nat (nrows df) ++ " rows and timestamp: "
       ++ strftime_column (now w (ticks st))].
Proof.
  intros Hr Hs He. unfold process_file, try_body.
  rewrite Hr, (insert0_seqno_fresh _ Hs).
  fold (augmented (strftime_column (now w (ticks st))) df).
  rewrite He. simpl. now rewrite nrows_augmented.
Qed.


End ClockFacts.

(* ------------------------------------------------------------------ *)
(** ** The sheets of the workbook *)

Section Sheets.

Variable w : World.

Lemma sheet_names_add_taken (b : Workbook) (name : string) (df : DataFrame) :
  In name (sheet_names b) -> sheet_names (add_table b name df) = sheet_names b.
Proof.
  induction b as [|sh rest IH]; simpl; [intros []|].
  intros H. destruct (String.eqb (title sh) name) eqn:E; [reflexivity|].
  simpl. f_equal. apply IH. destruct H as [H|H]; [|exact H].
  apply String.eqb_neq in E. contradiction.
Qed.

Lemma sheet_names_add_cases (b : Workbook) (name : string) (df : DataFrame) :
  sheet_names (add_table b name df) = sheet_names b \/
  (~ In name (sheet_names b) /\
   sheet_names (add_table b name df) = List.app (sheet_names b) [name]).
Proof.
  destruct (in_dec string_dec name (sheet_names b)) as [H|H].
  - left. now apply sheet_names_add_taken.
  - right. split; [exact H|]. rewrite (sheet_names_add_fresh _ _ _ H).
    unfold sheet_names. now rewrite map_app.
Qed.

Lemma add_table_NoDup (b : Workbook) (name : string) (df : DataFrame) :
  NoDup (sheet_names b) -> NoDup (sheet_names (add_table b name df)).
Proof.
  intros Hnd. destruct (sheet_names_add_cases b name df) as [-> | [Hn ->]].
  - exact Hnd.
  - apply NoDup_app.
    + exact Hnd.
    + repeat constructor. intros [].
    + intros a Ha [<- | []]. contradiction.
Qed.

Lemma add_table_length (b : Workbook) (name : string) (df : DataFrame) :
  List.length (add_table b name df) <= S (List.length b).
Proof.
  induction b as [|sh rest IH]; simpl; [lia|].
  destruct (String.eqb (title sh) name); simpl; lia.
Qed.

Lemma create_sheet_NoDup (b : Workbook) (default_title : string) :
  NoDup (sheet_names b) -> NoDup (sheet_names (create_sheet b default_title)).
Proof.
  intros Hnd. unfold create_sheet.
  destruct (existsb (String.eqb default_title) (sheet_names b)) eqn:E;
    [exact Hnd|].
  unfold sheet_names. rewrite map_app. simpl. apply NoDup_app.
  - exact Hnd.
  - repeat constructor. intros [].
  - intros a Ha [Ea | []].
    assert (Ht : existsb (String.eqb default_title) (sheet_names b) = true).
    { apply existsb_exists. exists a. split; [exact Ha|].
      rewrite Ea. apply String.eqb_refl. }
    congruence.
Qed.

Lemma create_sheet_length (b : Workbook) (default_title : string) :
  List.length (create_sheet b default_title) <= S (List.length b).
Proof.
  unfold create_sheet. destruct (existsb _ _); [lia|].
  rewrite length_app. simpl. lia.
Qed.

Lemma after_failure_sheets (l : leftover) (b : Workbook) :
  NoDup (sheet_names b) ->
  NoDup (sheet_names (after_failure l b)) /\
  List.length (after_failure l b) <= S (List.length b).
Proof.
  intros Hnd. destruct l; simpl.
  - split; [exact Hnd | lia].
  - split; [now apply create_sheet_NoDup | apply create_sheet_length].
  - split; [now apply add_table_NoDup | apply add_table_length].
Qed.

(** Every turn adds at most one sheet, and never a title twice. *)
Lemma loop_sheets (files : list string) (st : State) :
  NoDup (sheet_names (book st)) ->
  NoDup (sheet_names (book (fold_left (process_file w) files st))) /\
  List.length (book (fold_left (process_file w) files st))
  <= List.length (book st) + List.length files.
Proof.
  revert st. induction files as [|f rest IH]; intros st Hnd; simpl.
  - split; [exact Hnd | lia].
  - destruct (process_file_book w st f) as [(df & stored & _ & _ & Hb) | [l Hb]].
    + destruct (IH (process_file w st f)) as [H1 H2].
      * rewrite Hb. now apply add_table_NoDup.
      * split; [exact H1|]. rewrite Hb in H2.
        pose proof (add_table_length (book st) stored
                      (augmented (strftime_column (now w (ticks st))) df)).
        lia.
    + destruct (after_failure_sheets l (book st) Hnd) as [F1 F2].
      destruct (IH (process_file w st f)) as [H1 H2].
      * now rewrite Hb.
      * split; [exact H1|]. rewrite Hb in H2. lia.
Qed.

Lemma loop_ticks (files : list string) (st : State) :
  ticks (fold_left (process_file w) files st)
  = ticks st + List.length (filter (reaches_clock w) files).
Proof.
  revert st. induction files as [|f rest IH]; intros st; simpl; [lia|].
  rewrite IH. unfold reaches_clock at 2.
  destruct (read_csv w f) as [e|df] eqn:Hr.
  - rewrite (process_file_no_tick w st f); [lia|]. intros df H. congruence.
  - destruct (DF.has_column "seqno" df) eqn:Hs; simpl.
    + rewrite (process_file_no_tick w st f); [lia|]. intros df' H. congruence.
    + rewrite (process_file_ticks w st f df Hr Hs). lia.
Qed.

End Sheets.

(* ------------------------------------------------------------------ *)
(** ** What a sheet holds *)

Section SheetContents.

Variable w : World.

Lemma overlay_nil (g : Grid) : overlay g [] = g.
Proof. now destruct g. Qed.

(** A sheet written once holds the cells of that table. *)
Lemma sheet_grid_single (sh : Sheet) (df : DataFrame) :
  tables sh = [df] -> sheet_grid sh = grid_of df.
Proof. unfold sheet_grid. intros ->. cbn [fold_left]. apply overlay_nil. Qed.

Lemma grid_of_length (df : DataFrame) : List.length (grid_of df) = S (nrows df).
Proof. unfold grid_of. simpl. now rewrite length_map, length_seq. Qed.

Lemma grid_of_row (df : DataFrame) (i : nat) :
  i < nrows df -> nth (S i) (grid_of df) [] = data_row df i.
Proof.
  intros H. unfold grid_of. simpl.
  rewrite (nth_indep _ [] (data_row df 0))
    by (rewrite length_map, length_seq; exact H).
  rewrite map_nth. now rewrite seq_nth.
Qed.

Lemma data_row_seqno (ts : string) (df : DataFrame) (i : nat) :
  i < nrows df ->
  hd CNaN (data_row (augmented ts df) i) = CInt (Z.of_nat i + 1).
Proof.
  intros H. destruct (augmented_head ts df) as [rest Hc].
  unfold data_row. rewrite Hc. simpl.
  rewrite (nth_error_nth' _ CNaN) by (rewrite range_from_1_length; exact H).
  now rewrite range_from_1_nth.
Qed.

(** Row [i] of a table without timestamp columns of its own, as it is
    written: its number, its original entries, the timestamp twice. *)
Lemma data_row_augmented (ts : string) (df : DataFrame) (i : nat) :
  DF.has_column "create_ts" df = false ->
  DF.has_column "updt_ts" df = false ->
  i < nrows df ->
  data_row (augmented ts df) i
  = CInt (Z.of_nat i + 1) :: List.app (data_row df i) [CStr ts; CStr ts].
Proof.
  intros Hc Hu H. unfold data_row. rewrite (augmented_fresh _ _ Hc Hu).
  cbn [flat_map snd]. rewrite flat_map_app. cbn [flat_map snd].
  rewrite (nth_error_nth' _ CNaN) by (rewrite range_from_1_length; exact H).
  rewrite range_from_1_nth by exact H.
  rewrite (nth_error_repeat _ H). reflexivity.
Qed.

Lemma written_sheet (b : Workbook) (name : string) (df : DataFrame) :
  In (name, df) (written b) ->
  exists sh, In sh b /\ title sh = name /\ In df (tables sh).
Proof.
  unfold written. intros H. apply in_flat_map in H as (sh & Hin & H).
  apply in_map_iff in H as (d & E & Hd). injection E as <- <-.
  exists sh. auto.
Qed.

(** Titles that are pairwise distinct tell the sheets apart. *)
Lemma sheet_by_title (b : Workbook) (sh sh' : Sheet) :
  NoDup (sheet_names b) ->
  In sh b -> In sh' b -> title sh = title sh' -> sh = sh'.
Proof.
  induction b as [|a rest IH]; intros Hnd H H' E; [contradiction|].
  simpl in Hnd. inversion Hnd as [|? ? Ha Hrest]; subst.
  destruct H as [-> | H], H' as [-> | H'].
  - reflexivity.
  - exfalso. apply Ha. rewrite E. now apply in_map.
  - exfalso. apply Ha. rewrite <- E. now apply in_map.
  - now apply IH.
Qed.

(** An accepted file is written into the sheet of its name, and the
    table stays there. *)
Lemma loop_writes (files : list string) (st : State) (csv_file : string) :
  In csv_file files ->
  accepted w csv_file ->
  exists df0 k,
    read_csv w csv_file = inr df0 /\
    In (sheet_name_of csv_file, augmented (strftime_column (now w k)) df0)
       (written (book (fold_left (process_file w) files st))).
Proof.
  revert st. induction files as [|g rest IH]; intros st Hin Hacc; [contradiction|].
  simpl. destruct Hin as [-> | Hin]; [|now apply IH].
  destruct (process_file_accepted w st csv_file Hacc) as (df0 & Hr & Hb).
  exists df0, (ticks st). split; [exact Hr|].
  apply loop_keeps. rewrite Hb. apply written_add_table. now right.
Qed.

Lemma retained_nonempty (csv_files : list string) (csv_file : string) :
  In csv_file (retained csv_files) -> csv_files <> [].
Proof. intros H E. subst. exact H. Qed.

Lemma saved_sheets_completed (folder_path : string) :
  path_exists w folder_path = true ->
  discovered w folder_path <> [] ->
  writer_open w (excel_path_of w folder_path) = None ->
  writer_close w (excel_path_of w folder_path)
    (book (after_loop w (discovered w folder_path))) = None ->
  saved_sheets (process_folder_csvs w folder_path)
  = book (after_loop w (discovered w folder_path)).
Proof.
  intros He Hd Ho Hc. rewrite (run_completes w folder_path He Hd Ho Hc).
  unfold saved_sheets. simpl. apply app_nil_r.
Qed.

(** In a completed run, the saved workbook has the sheet of an accepted
    file's name, and the table of the file is among those written into
    it. *)
Lemma accepted_sheet (folder_path csv_file : string) :
  path_exists w folder_path = true ->
  writer_open w (excel_path_of w folder_path) = None ->
  writer_close w (excel_path_of w folder_path)
    (book (after_loop w (discovered w folder_path))) = None ->
  In csv_file (retained (discovered w folder_path)) ->
  accepted w csv_file ->
  exists sh df0 k,
    read_csv w csv_file = inr df0 /\
    In sh (saved_sheets (process_folder_csvs w folder_path)) /\
    title sh = sheet_name_of csv_file /\
    In (augmented (strftime_column (now w k)) df0) (tables sh).
Proof.
  intros He Ho Hc Hin Hacc.
  rewrite (saved_sheets_completed folder_path He (retained_nonempty _ _ Hin) Ho Hc).
  destruct (loop_writes (retained (discovered w folder_path))
              (mkState (discovery_report (discovered w folder_path)) 1 [])
              csv_file Hin Hacc) as (df0 & k & Hr & Hw).
  fold (after_loop w (discovered w folder_path)) in Hw.
  apply written_sheet in Hw as (sh & Hsh & Ht & Hd).
  exists sh, df0, k. auto.
Qed.

(** When that sheet has received one table only, it is the table of the
    file. *)
Lemma single_write (folder_path csv_file : string) (sh : Sheet) :
  path_exists w folder_path = true ->
  writer_open w (excel_path_of w folder_path) = None ->
  writer_close w (excel_path_of w folder_path)
    (book (after_loop w (discovered w folder_path))) = None ->
  In csv_file (retained (discovered w folder_path)) ->
  accepted w csv_file ->
  In sh (saved_sheets (process_folder_csvs w folder_path)) ->
  title sh = sheet_name_of csv_file ->
  List.length (tables sh) = 1 ->
  exists df0 k,
    read_csv w csv_file = inr df0 /\
    tables sh = [augmented (strftime_column (now w k)) df0].
Proof.
  intros He Ho Hc Hin Hacc Hsh Ht Hone.
  destruct (accepted_sheet folder_path csv_file He Ho Hc Hin Hacc)
    as (sh' & df0 & k & Hr & Hsh' & Ht' & Hd).
  assert (E : sh = sh').
  { rewrite (saved_sheets_completed folder_path He
               (retained_nonempty _ _ Hin) Ho Hc) in Hsh, Hsh'.
    apply (sheet_by_title (book (after_loop w (discovered w folder_path))));
      [|assumption|assumption|congruence].
    apply (loop_sheets w (retained (discovered w folder_path))
             (mkState (discovery_report (discovered w folder_path)) 1 [])).
    constructor. }
  subst sh'. exists df0, k. split; [exact Hr|].
  destruct (tables sh) as [|t [|t' r]]; try discriminate Hone.
  destruct Hd as [-> | []]. reflexivity.
Qed.

End SheetContents.

(* ================================================================== *)
(** * The claims *)

(** C1, as stated, fails: when the only CSV file of the folder is empty,
    the loop catches [EmptyDataError] and prints its line, but leaving the
    [with] block then raises (the writer refuses a workbook without a
    sheet) and that exception reaches the caller. *)
Lemma finalization_failure_reaches_caller :
  outcome (process_folder_csvs Sample.only_empty "/data")
  = Some Sample.no_visible_sheet /\
  stdout (process_folder_csvs Sample.only_empty "/data")
  = ["Found 1 CSV files:"; "  - blank.csv";
     "Error: File '/data/blank.csv' is empty"].
Proof. split; reflexivity. Qed.

(** C1, amended: [process_folder_csvs] returns normally whenever creating
    the [ExcelWriter] and leaving its [with] block do not raise; a missing
    folder, an empty listing and every failure inside a turn of the loop
    (loading, inserting [seqno], writing the sheet) are caught: each turn
    ends with exactly one printed line and no exception. *)
Theorem only_the_writer_can_raise (w : World) (folder_path : string) :
  writer_open w (excel_path_of w folder_path) = None ->
  writer_close w (excel_path_of w folder_path)
    (book (after_loop w (discovered w folder_path))) = None ->
  outcome (process_folder_csvs w folder_path) = None /\
  (forall st csv_file,
     exists line,
       out (process_file w st csv_file) = List.app (out st) [line]).
Proof.
  intros Ho Hc. split; [|intros st f; apply process_file_prints].
  unfold process_folder_csvs. fold (discovered w folder_path).
  destruct (negb (path_exists w folder_path)); [reflexivity|].
  destruct (Nat.eqb _ 0); [reflexivity|].
  now rewrite Ho, Hc.
Qed.

Lemma only_the_writer_can_raise_witness :
  writer_open Sample.test_folder (excel_path_of Sample.test_folder "/data") = None /\
  writer_close Sample.test_folder (excel_path_of Sample.test_folder "/data")
    (book (after_loop Sample.test_folder (discovered Sample.test_folder "/data")))
  = None /\
  outcome (process_folder_csvs Sample.test_folder "/data") = None.
Proof.
  split; [reflexivity|]. split; [reflexivity|].
  apply (only_the_writer_can_raise Sample.test_folder "/data"); reflexivity.
Defined.

(** C2: for a path at which nothing exists, the run prints one line,
    [Error: Folder '<path>' does not exist], causes no file-system event
    and returns. *)
Theorem missing_folder_is_reported (w : World) (folder_path : string) :
  path_exists w folder_path = false ->
  process_folder_csvs w folder_path
  = mkRun None ["Error: Folder '" ++ folder_path ++ "' does not exist"] [].
Proof. intros H. unfold process_folder_csvs. now rewrite H. Qed.

Lemma missing_folder_is_reported_witness :
  path_exists Sample.test_folder "/nowhere" = false /\
  process_folder_csvs Sample.test_folder "/nowhere"
  = mkRun None ["Error: Folder '/nowhere' does not exist"] [].
Proof.
  split; [reflexivity|].
  apply (missing_folder_is_reported Sample.test_folder "/nowhere"). reflexivity.
Defined.



(** C9: the file-system events of a run concern one path only, the
    workbook [test-data-load-<YYYYMMDD-HHMMSS>.xlsx] joined to the scanned
    folder: it is created and then saved at most once.  That path ends in
    [.xlsx], so no file whose name ends in [.csv], hence none of the
    discovered files, is created, written or removed. *)
Theorem only_the_workbook_is_written (w : World) (folder_path csv_file : string) :
  Str.ends_with ".csv" csv_file = true ->
  let ep := Path.join folder_path
              ("test-data-load-" ++ strftime_file (now w 0) ++ ".xlsx") in
  let r := process_folder_csvs w folder_path in
  (events r = [] \/ events r = [Created ep] \/
   exists b, events r = [Created ep; Saved ep b]) /\
  is_file_timestamp (strftime_file (now w 0)) = true /\
  ~ In csv_file (map event_path (events r)).
Proof.
  intros Hcsv. cbv zeta.
  change (Path.join folder_path
            ("test-data-load-" ++ strftime_file (now w 0) ++ ".xlsx"))
    with (excel_path_of w folder_path).
  pose proof (events_shape w folder_path) as Hs. cbv zeta in Hs.
  pose proof (excel_path_xlsx w folder_path) as Hx.
  split; [exact Hs|]. split; [apply strftime_file_layout|].
  assert (Hne : excel_path_of w folder_path <> csv_file).
  { intros E. rewrite <- E in Hcsv. apply xlsx_is_not_csv in Hx.
    rewrite Hx in Hcsv. discriminate Hcsv. }
  destruct Hs as [-> | [-> | [b ->]]]; simpl; intuition.
Qed.

Lemma only_the_workbook_is_written_witness :
  Str.ends_with ".csv" "/data/sales.csv" = true /\
  events (process_folder_csvs Sample.test_folder "/data")
  = [Created "/data/test-data-load-20240101-090507.xlsx";
     Saved "/data/test-data-load-20240101-090507.xlsx"
       (book (after_loop Sample.test_folder (discovered Sample.test_folder "/data")))] /\
  ~ In "/data/sales.csv"
      (map event_path (events (process_folder_csvs Sample.test_folder "/data"))).
Proof.
  split; [reflexivity|]. split; [reflexivity|].
  apply (only_the_workbook_is_written Sample.test_folder "/data" "/data/sales.csv").
  reflexivity.
Defined.

(** C6, as stated, fails when two retained files get the same sheet name:
    the second table is written over the first in one sheet, from cell A1,
    and the rows of the first table below it stay.  Here the second file
    has 2 rows, and the sheet written from it shows the numbers 1, 2, 3. *)
Lemma shared_sheet_counts_to_three :
  let r := process_folder_csvs Sample.long_names "/data" in
  retained (discovered Sample.long_names "/data")
  = ["/data/quarterly_sales_report_for_the_region_north.csv";
     "/data/quarterly_sales_report_for_the_region_south.csv"] /\
  read_csv Sample.long_names "/data/quarterly_sales_report_for_the_region_south.csv"
  = inr Sample.extra /\
  nrows Sample.extra = 2 /\
  outcome r = None /\
  sheet_names (saved_sheets r) = ["quarterly_sales_report_for_the_"] /\
  map (fun sh => map (hd CNaN) (sheet_grid sh)) (saved_sheets r)
  = [[CStr "seqno"; CInt 1; CInt 2; CInt 3]].
Proof. cbv zeta. repeat split; reflexivity. Qed.

(** C6, amended: take a completed run and a retained file that is accepted
    (it loads a table of n rows without a [seqno] column, and the writer
    takes the sheet under the file's name).  If the sheet of that name has
    received one table only, its cells are a header row and n rows below
    it, and the first column is headed [seqno] and holds i + 1 in row i
    (counted from 0): 1, 2, ..., n, from the row count of that table
    alone. *)
Theorem seqno_counts_rows_from_one (w : World) (folder_path csv_file : string)
        (df0 : DataFrame) (sh : Sheet) :
  path_exists w folder_path = true ->
  writer_open w (excel_path_of w folder_path) = None ->
  writer_close w (excel_path_of w folder_path)
    (book (after_loop w (discovered w folder_path))) = None ->
  In csv_file (retained (discovered w folder_path)) ->
  accepted w csv_file ->
  read_csv w csv_file = inr df0 ->
  In sh (saved_sheets (process_folder_csvs w folder_path)) ->
  title sh = sheet_name_of csv_file ->
  List.length (tables sh) = 1 ->
  List.length (sheet_grid sh) = S (nrows df0) /\
  hd CNaN (nth 0 (sheet_grid sh) []) = CStr "seqno" /\
  forall i, i < nrows df0 ->
    hd CNaN (nth (S i) (sheet_grid sh) []) = CInt (Z.of_nat i + 1).
Proof.
  intros He Ho Hc Hin Hacc Hr Hsh Htitle Hone.
  destruct (single_write w folder_path csv_file sh He Ho Hc Hin Hacc Hsh Htitle Hone)
    as (df & k & Hr' & Ht).
  rewrite Hr in Hr'. injection Hr' as <-.
  rewrite (sheet_grid_single _ _ Ht).
  split; [now rewrite grid_of_length, nrows_augmented|].
  split.
  - destruct (augmented_head (strftime_column (now w k)) df0) as [rest E].
    unfold grid_of, header_row, DF.names. now rewrite E.
  - intros i Hi. rewrite grid_of_row by (now rewrite nrows_augmented).
    now apply data_row_seqno.
Qed.

Lemma seqno_counts_rows_from_one_witness :
  let sh := mkSheet "employees" [augmented "2024-01-01 09:05AM" Sample.employees] in
  In "/data/employees.csv" (retained (discovered Sample.test_folder "/data")) /\
  accepted Sample.test_folder "/data/employees.csv" /\
  In sh (saved_sheets (process_folder_csvs Sample.test_folder "/data")) /\
  List.length (sheet_grid sh) = 4 /\
  hd CNaN (nth 0 (sheet_grid sh) []) = CStr "seqno" /\
  forall i, i < 3 ->
    hd CNaN (nth (S i) (sheet_grid sh) []) = CInt (Z.of_nat i + 1).
Proof.
  cbv zeta.
  assert (Hin : In "/data/employees.csv"
                   (retained (discovered Sample.test_folder "/data")))
    by (left; reflexivity).
  assert (Hacc : accepted Sample.test_folder "/data/employees.csv").
  { exists Sample.employees. repeat split; reflexivity. }
  assert (Hsh : In (mkSheet "employees"
                      [augmented "2024-01-01 09:05AM" Sample.employees])
                   (saved_sheets (process_folder_csvs Sample.test_folder "/data")))
    by (left; reflexivity).
  split; [exact Hin|]. split; [exact Hacc|]. split; [exact Hsh|].
  exact (seqno_counts_rows_from_one Sample.test_folder "/data"
           "/data/employees.csv" Sample.employees _
           eq_refl eq_refl eq_refl Hin Hacc eq_refl Hsh eq_refl eq_refl).
Defined.



(** A base name of 40 characters gives a sheet name of 31. *)
Example long_name_is_cut :
  sheet_name_of "/data/a_very_long_file_name_of_forty_characters.csv"
  = "a_very_long_file_name_of_forty_".
Proof. reflexivity. Qed.

(** C5, as stated, fails in two ways.  A table whose only column is
    [create_ts] (k = 1) gives a sheet of 3 columns, not k + 3 = 4, and its
    original column does not come through unchanged: the assignment on
    line 61 overwrites it.  And when two retained files get the same sheet
    name, the second table (k = 2) is written over the first (k = 3) from
    cell A1: the sheet keeps 6 columns, not 5, and the third row of the
    first table. *)
Lemma sheet_is_not_original_plus_three :
  columns Sample.stamped = [("create_ts", [CStr "old"; CStr "older"])] /\
  map sheet_grid (saved_sheets (process_folder_csvs Sample.only_stamped "/data"))
  = [[[CStr "seqno"; CStr "create_ts"; CStr "updt_ts"];
      [CInt 1; CStr "2024-01-01 09:05AM"; CStr "2024-01-01 09:05AM"];
      [CInt 2; CStr "2024-01-01 09:05AM"; CStr "2024-01-01 09:05AM"]]] /\
  DF.names Sample.extra = ["Col1"; "Col2"] /\
  map tables (saved_sheets (process_folder_csvs Sample.long_names "/data"))
  = [[augmented "2024-01-01 09:05AM" Sample.sales;
      augmented "2024-01-01 09:05AM" Sample.extra]] /\
  map sheet_grid (saved_sheets (process_folder_csvs Sample.long_names "/data"))
  = [[[CStr "seqno"; CStr "Col1"; CStr "Col2"; CStr "create_ts"; CStr "updt_ts";
       CStr "updt_ts"];
      [CInt 1; CInt 1; CInt 3; CStr "2024-01-01 09:05AM";
       CStr "2024-01-01 09:05AM"; CStr "2024-01-01 09:05AM"];
      [CInt 2; CInt 2; CInt 4; CStr "2024-01-01 09:05AM";
       CStr "2024-01-01 09:05AM"; CStr "2024-01-01 09:05AM"];
      [CInt 3; CStr "2024-01-03"; CInt 1200; CStr "East";
       CStr "2024-01-01 09:05AM"; CStr "2024-01-01 09:05AM"]]].
Proof. repeat split; reflexivity. Qed.

(** C5, amended: take a completed run and a retained file that is accepted
    and whose table has k columns, none called [create_ts] or [updt_ts].
    If the sheet of that file's name has received one table only, its
    header row reads [seqno], the k original names in their order,
    [create_ts], [updt_ts], k + 3 cells in all, and every row below holds
    its number, the original entries of that row unchanged and in order,
    and one and the same text in the two timestamp cells. *)
Theorem columns_in_order (w : World) (folder_path csv_file : string)
        (df0 : DataFrame) (sh : Sheet) :
  path_exists w folder_path = true ->
  writer_open w (excel_path_of w folder_path) = None ->
  writer_close w (excel_path_of w folder_path)
    (book (after_loop w (discovered w folder_path))) = None ->
  In csv_file (retained (discovered w folder_path)) ->
  accepted w csv_file ->
  read_csv w csv_file = inr df0 ->
  DF.has_column "create_ts" df0 = false ->
  DF.has_column "updt_ts" df0 = false ->
  In sh (saved_sheets (process_folder_csvs w folder_path)) ->
  title sh = sheet_name_of csv_file ->
  List.length (tables sh) = 1 ->
  exists ts,
    List.length (sheet_grid sh) = S (nrows df0) /\
    nth 0 (sheet_grid sh) []
    = map CStr ("seqno" :: List.app (DF.names df0) ["create_ts"; "updt_ts"]) /\
    List.length (nth 0 (sheet_grid sh) []) = List.length (columns df0) + 3 /\
    forall i, i < nrows df0 ->
      nth (S i) (sheet_grid sh) []
      = CInt (Z.of_nat i + 1) :: List.app (data_row df0 i) [CStr ts; CStr ts].
Proof.
  intros He Ho Hc Hin Hacc Hr Hcr Hup Hsh Htitle Hone.
  destruct (single_write w folder_path csv_file sh He Ho Hc Hin Hacc Hsh Htitle Hone)
    as (df & k & Hr' & Ht).
  rewrite Hr in Hr'. injection Hr' as <-.
  exists (strftime_column (now w k)).
  rewrite (sheet_grid_single _ _ Ht).
  split; [now rewrite grid_of_length, nrows_augmented|].
  assert (Hn : DF.names (augmented (strftime_column (now w k)) df0)
               = "seqno" :: List.app (DF.names df0) ["create_ts"; "updt_ts"]).
  { rewrite augmented_names, Hcr, Hup. reflexivity. }
  split; [|split].
  - unfold grid_of, header_row. cbn [nth]. now rewrite Hn.
  - unfold grid_of, header_row. cbn [nth]. rewrite Hn, length_map.
    cbn [List.length]. rewrite length_app. unfold DF.names.
    rewrite length_map. simpl. lia.
  - intros i Hi. rewrite grid_of_row by (now rewrite nrows_augmented).
    now apply data_row_augmented.
Qed.

Lemma columns_in_order_witness :
  let sh := mkSheet "employees" [augmented "2024-01-01 09:05AM" Sample.employees] in
  In "/data/employees.csv" (retained (discovered Sample.test_folder "/data")) /\
  accepted Sample.test_folder "/data/employees.csv" /\
  In sh (saved_sheets (process_folder_csvs Sample.test_folder "/data")) /\
  exists ts,
    List.length (sheet_grid sh) = 4 /\
    nth 0 (sheet_grid sh) []
    = map CStr ["seqno"; "Name"; "Age"; "City"; "create_ts"; "updt_ts"] /\
    List.length (nth 0 (sheet_grid sh) []) = 6 /\
    forall i, i < 3 ->
      nth (S i) (sheet_grid sh) []
      = CInt (Z.of_nat i + 1)
          :: List.app (data_row Sample.employees i) [CStr ts; CStr ts].
Proof.
  cbv zeta.
  assert (Hin : In "/data/employees.csv"
                   (retained (discovered Sample.test_folder "/data")))
    by (left; reflexivity).
  assert (Hacc : accepted Sample.test_folder "/data/employees.csv").
  { exists Sample.employees. repeat split; reflexivity. }
  assert (Hsh : In (mkSheet "employees"
                      [augmented "2024-01-01 09:05AM" Sample.employees])
                   (saved_sheets (process_folder_csvs Sample.test_folder "/data")))
    by (left; reflexivity).
  split; [exact Hin|]. split; [exact Hacc|]. split; [exact Hsh|].
  exact (columns_in_order Sample.test_folder "/data" "/data/employees.csv"
           Sample.employees _
           eq_refl eq_refl eq_refl Hin Hacc eq_refl eq_refl eq_refl
           Hsh eq_refl eq_refl).
Defined.

(** The cells of the [employees] sheet of the test folder. *)
Example employees_sheet :
  sheet_grid (mkSheet "employees" [augmented "2024-01-01 09:05AM" Sample.employees])
  = [[CStr "seqno"; CStr "Name"; CStr "Age"; CStr "City";
      CStr "create_ts"; CStr "updt_ts"];
     [CInt 1; CStr "Alice"; CInt 25; CStr "New York";
      CStr "2024-01-01 09:05AM"; CStr "2024-01-01 09:05AM"];
     [CInt 2; CStr "Bob"; CInt 30; CStr "Los Angeles";
      CStr "2024-01-01 09:05AM"; CStr "2024-01-01 09:05AM"];
     [CInt 3; CStr "Charlie"; CInt 35; CStr "Chicago";
      CStr "2024-01-01 09:05AM"; CStr "2024-01-01 09:05AM"]].
Proof. reflexivity. Qed.



(** A numbered file between two ordinary ones: it is skipped with its
    message and the files before and after it become sheets. *)
Example numbered_file_is_skipped :
  stdout (process_folder_csvs Sample.numbered_between "/data")
  = ["Found 3 CSV files:"; "  - a.csv"; "  - b.csv"; "  - c.csv";
     "Successfully added 'a.csv' to sheet 'a' with 2 rows and timestamp: 2024-01-01 09:05AM";
     "Error processing '/data/b.csv': cannot insert seqno, already exists";
     "Successfully added 'c.csv' to sheet 'c' with 2 rows and timestamp: 2024-01-01 09:05AM";
     "Excel file created at: /data/test-data-load-20240101-090507.xlsx"] /\
  sheet_names (saved_sheets (process_folder_csvs Sample.numbered_between "/data"))
  = ["a"; "c"].
Proof. split; reflexivity. Qed.

(** C3, as stated, fails on the hour: [%I] pads it to two digits.  At
    09:05 in the morning the columns hold [2024-01-01 09:05AM], whereas the
    layout with an unpadded hour would read [2024-01-01 9:05AM]. *)
Lemma hour_is_zero_padded :
  strftime_column Sample.morning = "2024-01-01 09:05AM" /\
  unpadded_hour_layout Sample.morning = "2024-01-01 9:05AM" /\
  strftime_column Sample.morning <> unpadded_hour_layout Sample.morning /\
  In ("employees", augmented "2024-01-01 09:05AM" Sample.employees)
     (saved_tables (process_folder_csvs Sample.test_folder "/data")).
Proof.
  split; [reflexivity|]. split; [reflexivity|]. split; [discriminate|].
  left; reflexivity.
Qed.

(** C3, amended: for every file that loads and whose table takes the
    [seqno] column, the clock is read exactly once in its turn, and that
    reading is formatted as [YYYY-MM-DD hh:mmAM] or [...PM]: 12-hour clock
    with the hour zero-padded to two digits (01 to 12), zero-padded minutes,
    capital [AM] or [PM] directly behind the minutes.  This one string
    fills every row of the [create_ts] and [updt_ts] columns, as text, of
    the table handed to the writer. *)
Theorem timestamp_read_once_and_shared (w : World) (st : State)
        (csv_file : string) (df : DataFrame) :
  read_csv w csv_file = inr df ->
  DF.has_column "seqno" df = false ->
  valid_datetime (now w (ticks st)) ->
  let ts := strftime_column (now w (ticks st)) in
  ticks (process_file w st csv_file) = S (ticks st) /\
  is_column_timestamp ts = true /\
  columns_named "create_ts" (augmented ts df) <> [] /\
  columns_named "updt_ts" (augmented ts df) <> [] /\
  Forall (eq (repeat (CStr ts) (nrows df)))
         (columns_named "create_ts" (augmented ts df)) /\
  Forall (eq (repeat (CStr ts) (nrows df)))
         (columns_named "updt_ts" (augmented ts df)) /\
  (sheet_error w (sheet_name_of csv_file) (augmented ts df) = None ->
   book (process_file w st csv_file)
   = add_table (book st) (sheet_name_of csv_file) (augmented ts df)).
Proof.
  intros Hr Hs Hv ts.
  destruct (augmented_timestamps ts df) as (Hc1 & Hu1 & Hc2 & Hu2).
  split; [now apply (process_file_ticks w st csv_file df)|].
  split; [apply strftime_column_layout; unfold valid_datetime in Hv; tauto|].
  repeat (split; [assumption|]).
  intros He. now apply process_file_written.
Qed.

Lemma timestamp_read_once_and_shared_witness :
  read_csv Sample.test_folder "/data/sales.csv" = inr Sample.sales /\
  DF.has_column "seqno" Sample.sales = false /\
  valid_datetime (now Sample.test_folder 1) /\
  ticks (process_file Sample.test_folder (mkState [] 1 []) "/data/sales.csv") = 2 /\
  is_column_timestamp (strftime_column (now Sample.test_folder 1)) = true.
Proof.
  assert (Hv : valid_datetime (now Sample.test_folder 1)).
  { unfold valid_datetime. simpl. repeat split; lia. }
  split; [reflexivity|]. split; [reflexivity|]. split; [exact Hv|].
  pose proof (timestamp_read_once_and_shared Sample.test_folder
                (mkState [] 1 []) "/data/sales.csv" Sample.sales
                eq_refl eq_refl Hv) as H.
  split; [exact (proj1 H) | exact (proj1 (proj2 H))].
Defined.

(** C4, as stated, fails: three files that all load, the middle one with
    a [seqno] column of its own, give a workbook of two sheets, not
    min(3, 3) = 3. *)
Lemma loaded_file_without_sheet :
  discovered Sample.numbered_between "/data"
  = ["/data/a.csv"; "/data/b.csv"; "/data/c.csv"] /\
  read_csv Sample.numbered_between "/data/a.csv" = inr Sample.extra /\
  read_csv Sample.numbered_between "/data/b.csv" = inr Sample.numbered /\
  read_csv Sample.numbered_between "/data/c.csv" = inr Sample.extra /\
  outcome (process_folder_csvs Sample.numbered_between "/data") = None /\
  List.length (saved_sheets (process_folder_csvs Sample.numbered_between "/data"))
  = 2.
Proof. repeat split; reflexivity. Qed.

(** C4, amended: let N >= 1 files be discovered, and let every retained
    file be accepted (it loads, its table has no [seqno] column, the writer
    takes its sheet), the sheet names of the retained files being pairwise
    distinct and the writer opening and closing without an exception.
    Then the saved workbook has exactly min(N, 3) sheets, one table each,
    named in order after the first min(N, 3) files of the sorted listing;
    the sorted listing is a rearrangement of the discovered files in
    ascending string order; and when N > 3 the line
    [Using first 3 CSV files (found N total)] is printed. *)
Theorem first_three_files_become_sheets (w : World) (folder_path : string) :
  path_exists w folder_path = true ->
  1 <= List.length (discovered w folder_path) ->
  writer_open w (excel_path_of w folder_path) = None ->
  writer_close w (excel_path_of w folder_path)
    (book (after_loop w (discovered w folder_path))) = None ->
  Forall (accepted w) (retained (discovered w folder_path)) ->
  NoDup (map sheet_name_of (retained (discovered w folder_path))) ->
  let files := discovered w folder_path in
  let r := process_folder_csvs w folder_path in
  outcome r = None /\
  sheet_names (saved_sheets r) = map sheet_name_of (firstn 3 (sort files)) /\
  List.length (saved_sheets r) = Nat.min (List.length files) 3 /\
  Forall (fun sh => exists df, tables sh = [df]) (saved_sheets r) /\
  Sorted path_le (sort files) /\
  Permutation files (sort files) /\
  (3 < List.length files -> In (cap_message (List.length files)) (stdout r)).
Proof.
  intros He Hn Ho Hc Hacc Hnd. cbv zeta.
  assert (Hd : discovered w folder_path <> []).
  { intros E. rewrite E in Hn. simpl in Hn. lia. }
  rewrite (run_completes w folder_path He Hd Ho Hc).
  unfold saved_sheets. simpl. rewrite app_nil_r.
  destruct (loop_accepted w (retained (discovered w folder_path))
              (mkState (discovery_report (discovered w folder_path)) 1 [])
              Hacc Hnd) as (sheets & Hb & Hnames & Hone).
  fold (after_loop w (discovered w folder_path)) in Hb. simpl in Hb.
  rewrite Hb.
  split; [reflexivity|].
  split; [now rewrite Hnames, retained_firstn|].
  split.
  { unfold sheet_names in Hnames.
    rewrite <- (length_map title sheets), Hnames, length_map.
    apply retained_length. }
  split; [exact Hone|].
  split; [apply sort_Sorted|].
  split; [apply sort_perm|].
  intros Hbig. apply in_or_app. left.
  destruct (out_grows w (retained (discovered w folder_path))
              (mkState (discovery_report (discovered w folder_path)) 1 []))
    as [more Hm].
  fold (after_loop w (discovered w folder_path)) in Hm. rewrite Hm.
  cbn [out]. apply in_or_app. left. now apply cap_message_reported.
Qed.

Lemma first_three_files_become_sheets_witness :
  path_exists Sample.five_files "/data" = true /\
  1 <= List.length (discovered Sample.five_files "/data") /\
  Forall (accepted Sample.five_files) (retained (discovered Sample.five_files "/data")) /\
  NoDup (map sheet_name_of (retained (discovered Sample.five_files "/data"))) /\
  sheet_names (saved_sheets (process_folder_csvs Sample.five_files "/data"))
  = ["employees"; "extra1"; "extra2"] /\
  In (cap_message 5) (stdout (process_folder_csvs Sample.five_files "/data")).
Proof.
  assert (Hacc : Forall (accepted Sample.five_files)
                        (retained (discovered Sample.five_files "/data"))).
  { repeat constructor.
    - exists Sample.employees. repeat split; reflexivity.
    - exists Sample.extra. repeat split; reflexivity.
    - exists Sample.extra. repeat split; reflexivity. }
  assert (Hnd : NoDup (map sheet_name_of
                         (retained (discovered Sample.five_files "/data")))).
  { repeat constructor; simpl; intuition discriminate. }
  assert (Hn : 1 <= List.length (discovered Sample.five_files "/data"))
    by (simpl; lia).
  split; [reflexivity|]. split; [exact Hn|]. split; [exact Hacc|].
  split; [exact Hnd|].
  pose proof (first_three_files_become_sheets Sample.five_files "/data"
                eq_refl Hn eq_refl eq_refl Hacc Hnd) as H.
  cbv zeta in H.
  split; [exact (proj1 (proj2 H))|].
  apply (proj2 (proj2 (proj2 (proj2 (proj2 (proj2 H)))))). simpl. lia.
Defined.

(* ================================================================== *)
(** * Further properties of the script *)

(* ------------------------------------------------------------------ *)
(** ** The order of strings *)

Section StringOrder.

Lemma ascii_compare_lt_trans (a b c : ascii) :
  Ascii.compare a b = Lt -> Ascii.compare b c = Lt -> Ascii.compare a c = Lt.
Proof.
  unfold Ascii.compare. rewrite !N.compare_lt_iff. apply N.lt_trans.
Qed.

Lemma string_compare_trans (a b c : string) :
  String.compare a b <> Gt -> String.compare b c <> Gt -> String.compare a c <> Gt.
Proof.
  revert b c. induction a as [|x a IH]; intros [|y b] [|z c]; simpl;
    try congruence.
  destruct (Ascii.compare x y) eqn:Exy; [| |congruence].
  - apply Ascii.compare_eq_iff in Exy. subst y.
    destruct (Ascii.compare x z); [apply IH | congruence | congruence].
  - intros _. destruct (Ascii.compare y z) eqn:Eyz; [| |congruence].
    + apply Ascii.compare_eq_iff in Eyz. subst z. rewrite Exy. congruence.
    + rewrite (ascii_compare_lt_trans _ _ _ Exy Eyz). congruence.
Qed.

Lemma path_le_trans (a b c : string) : path_le a b -> path_le b c -> path_le a c.
Proof.
  unfold path_le, String.leb. intros H1 H2.
  pose proof (string_compare_trans a b c) as H.
  destruct (String.compare a b); destruct (String.compare b c);
    destruct (String.compare a c); try reflexivity; try discriminate;
    exfalso; apply H; congruence.
Qed.

Lemma not_le_ge (a b : string) : String.leb a b = false -> path_le b a.
Proof.
  intros H. destruct (String.leb_total a b) as [H'|H']; [congruence | exact H'].
Qed.

(** Insertions commute, so the order in which a list is fed to the sort
    does not matter. *)
Lemma insert_sorted_comm (x y : string) (l : list string) :
  insert_sorted x (insert_sorted y l) = insert_sorted y (insert_sorted x l).
Proof.
  induction l as [|z r IH]; simpl.
  - destruct (String.leb x y) eqn:Exy, (String.leb y x) eqn:Eyx; try reflexivity.
    + now rewrite (String.leb_antisym _ _ Exy Eyx).
    + apply not_le_ge in Exy. unfold path_le in Exy. congruence.
  - destruct (String.leb y z) eqn:Eyz, (String.leb x z) eqn:Exz; simpl.
    + destruct (String.leb x y) eqn:Exy, (String.leb y x) eqn:Eyx;
        rewrite ?Exz, ?Eyz; try reflexivity.
      * now rewrite (String.leb_antisym _ _ Exy Eyx).
      * apply not_le_ge in Exy. unfold path_le in Exy. congruence.
    + rewrite Eyz.
      destruct (String.leb x y) eqn:Exy.
      * pose proof (path_le_trans _ _ _ Exy Eyz) as H. unfold path_le in H.
        congruence.
      * now rewrite Exz.
    + rewrite Exz.
      destruct (String.leb y x) eqn:Eyx.
      * pose proof (path_le_trans _ _ _ Eyx Exz) as H. unfold path_le in H.
        congruence.
      * now rewrite Eyz.
    + rewrite Exz, Eyz. now rewrite IH.
Qed.

Lemma sort_permutation_eq (l l' : list string) :
  Permutation l l' -> sort l = sort l'.
Proof.
  induction 1 as [| x l l' _ IH | x y l | l l' l'' _ IH1 _ IH2]; simpl.
  - reflexivity.
  - now rewrite IH.
  - apply insert_sorted_comm.
  - congruence.
Qed.

End StringOrder.

(* ------------------------------------------------------------------ *)
(** ** Turns that fail *)

(** The line an [except] clause prints for [e] raised on [csv_file]. *)
Lemma except_line (csv_file : string) (e : exn) (st : State) :
  except csv_file e st
  = mkState
      (List.app (out st)
         [match cls e with
          | FileNotFoundError => "Error: File '" ++ csv_file ++ "' not found"
          | EmptyDataError => "Error: File '" ++ csv_file ++ "' is empty"
          | _ => "Error processing '" ++ csv_file ++ "': " ++ message e
          end])
      (ticks st) (book st).
Proof. unfold except, print. now destruct (cls e). Qed.

(** X1: when [read_csv] raises, the turn changes neither the workbook nor
    the clock and prints one line chosen by the class of the exception:
    [... not found] for [FileNotFoundError], [... is empty] for
    [EmptyDataError], [Error processing ...] with the message otherwise. *)
Theorem load_failure_is_skipped (w : World) (st : State) (csv_file : string)
        (e : exn) :
  read_csv w csv_file = inl e ->
  process_file w st csv_file
  = mkState
      (List.app (out st)
         [match cls e with
          | FileNotFoundError => "Error: File '" ++ csv_file ++ "' not found"
          | EmptyDataError => "Error: File '" ++ csv_file ++ "' is empty"
          | _ => "Error processing '" ++ csv_file ++ "': " ++ message e
          end])
      (ticks st) (book st).
Proof.
  intros H.
  assert (E : process_file w st csv_file = except csv_file e st).
  { unfold process_file, try_body. now rewrite H. }
  rewrite E. apply except_line.
Qed.

Lemma load_failure_is_skipped_witness :
  read_csv Sample.only_empty "/data/blank.csv" = inl Sample.empty_data /\
  process_file Sample.only_empty (mkState [] 1 []) "/data/blank.csv"
  = mkState ["Error: File '/data/blank.csv' is empty"] 1 [].
Proof.
  split; [reflexivity|].
  exact (load_failure_is_skipped Sample.only_empty (mkState [] 1 [])
           "/data/blank.csv" Sample.empty_data eq_refl).
Defined.

(** X2: when the table loads and takes the [seqno] column but [to_excel]
    raises, the clock has been read once, the turn prints the line of the
    matching [except] clause, and the workbook is as the failed call has
    left it: unchanged, or with one more sheet, empty and under a default
    title when the title was refused, or with the cells written until
    then in the sheet they went to. *)
Theorem sheet_failure_is_skipped (w : World) (st : State) (csv_file : string)
        (df : DataFrame) (e : exn) (leaves : leftover) :
  read_csv w csv_file = inr df ->
  DF.has_column "seqno" df = false ->
  sheet_error w (sheet_name_of csv_file)
    (augmented (strftime_column (now w (ticks st))) df) = Some (Raises e leaves) ->
  process_file w st csv_file
  = mkState
      (List.app (out st)
         [match cls e with
          | FileNotFoundError => "Error: File '" ++ csv_file ++ "' not found"
          | EmptyDataError => "Error: File '" ++ csv_file ++ "' is empty"
          | _ => "Error processing '" ++ csv_file ++ "': " ++ message e
          end])
      (S (ticks st))
      (match leaves with
       | NoSheet => book st
       | BlankSheet default_title =>
           if existsb (String.eqb default_title) (sheet_names (book st))
           then book st
           else List.app (book st) [mkSheet default_title []]
       | PartSheet sheet_title part => add_table (book st) sheet_title part
       end).
Proof.
  intros Hr Hs He. unfold process_file, try_body.
  rewrite Hr, (insert0_seqno_fresh _ Hs).
  fold (augmented (strftime_column (now w (ticks st))) df).
  rewrite He, except_line. destruct leaves; reflexivity.
Qed.

Lemma sheet_failure_is_skipped_witness :
  read_csv Sample.colon_world "/data/a:b.csv" = inr Sample.extra /\
  DF.has_column "seqno" Sample.extra = false /\
  process_file Sample.colon_world (mkState [] 1 []) "/data/a:b.csv"
  = mkState
      ["Error processing '/data/a:b.csv': Invalid character : found in sheet title"]
      2 [mkSheet "Sheet" []].
Proof.
  split; [reflexivity|]. split; [reflexivity|].
  exact (sheet_failure_is_skipped Sample.colon_world (mkState [] 1 []) "/data/a:b.csv"
           Sample.extra
           (mkExn ValueError "Invalid character : found in sheet title")
           (BlankSheet "Sheet")
           eq_refl eq_refl eq_refl).
Defined.

(** Two files whose names differ by letter case only: the line printed
    for the second names the sheet the script asked for, whatever title
    the writer gives it. *)
Example letter_case_collision :
  sheet_names (saved_sheets (process_folder_csvs Sample.letter_case "/data"))
  = ["ABC"; "abc1"] /\
  stdout (process_folder_csvs Sample.letter_case "/data")
  = ["Found 2 CSV files:"; "  - ABC.csv"; "  - abc.csv";
     "Successfully added 'ABC.csv' to sheet 'ABC' with 2 rows and timestamp: 2024-01-01 09:05AM";
     "Successfully added 'abc.csv' to sheet 'abc' with 2 rows and timestamp: 2024-01-01 09:05AM";
     "Excel file created at: /data/test-data-load-20240101-090507.xlsx"].
Proof. split; reflexivity. Qed.

(** A folder whose only file has a colon in its name: the run returns and
    saves a workbook whose one sheet is empty and called [Sheet]. *)
Example refused_title_leaves_a_sheet :
  outcome (process_folder_csvs Sample.colon_world "/data") = None /\
  saved_sheets (process_folder_csvs Sample.colon_world "/data")
  = [mkSheet "Sheet" []] /\
  map sheet_grid (saved_sheets (process_folder_csvs Sample.colon_world "/data"))
  = [[]].
Proof. repeat split; reflexivity. Qed.

(* ------------------------------------------------------------------ *)
(** ** What a run prints *)

Section Output.

Variable w : World.



(** Whatever the writer does, a run that finds files starts its output
    with the discovery report. *)
Lemma stdout_starts_with_report (folder_path : string) :
  path_exists w folder_path = true ->
  discovered w folder_path <> [] ->
  exists more,
    stdout (process_folder_csvs w folder_path)
    = List.app (discovery_report (discovered w folder_path)) more.
Proof.
  intros He Hd. unfold process_folder_csvs. fold (discovered w folder_path).
  rewrite He. simpl.
  destruct (discovered w folder_path) as [|f r] eqn:E; [contradiction|].
  simpl Nat.eqb. cbv iota. rewrite <- E.
  destruct (out_grows w (retained (discovered w folder_path))
              (mkState (discovery_report (discovered w folder_path)) 1 []))
    as [more Hm].
  fold (after_loop w (discovered w folder_path)) in Hm. cbn [out] in Hm.
  destruct (writer_open w _).
  - exists []. cbn [stdout]. now rewrite app_nil_r.
  - destruct (writer_close w _ _); cbn [stdout]; rewrite Hm.
    + eexists. reflexivity.
    + rewrite <- app_assoc. eexists. reflexivity.
Qed.

End Output.



(** X4: every discovered file is listed by its base name, also those
    beyond the first three, and the first line gives their number; this
    holds even when the writer fails afterwards. *)
Theorem every_discovered_file_is_listed (w : World) (folder_path csv_file : string) :
  path_exists w folder_path = true ->
  In csv_file (discovered w folder_path) ->
  let r := process_folder_csvs w folder_path in
  hd "" (stdout r)
  = "Found " ++ Str.of_nat (List.length (discovered w folder_path)) ++ " CSV files:" /\
  In ("  - " ++ Path.basename csv_file) (stdout r).
Proof.
  intros He Hin. cbv zeta.
  assert (Hd : discovered w folder_path <> []).
  { intros E. rewrite E in Hin. exact Hin. }
  destruct (stdout_starts_with_report w folder_path He Hd) as [more ->].
  unfold discovery_report. rewrite sort_length. split; [reflexivity|].
  apply in_or_app. left. cbn [List.app]. right. apply in_or_app. left.
  apply in_map_iff. exists csv_file. split; [reflexivity|].
  apply (Permutation_in _ (sort_perm _)). exact Hin.
Qed.

Lemma every_discovered_file_is_listed_witness :
  path_exists Sample.five_files "/data" = true /\
  In "/data/sales.csv" (discovered Sample.five_files "/data") /\
  In "  - sales.csv" (stdout (process_folder_csvs Sample.five_files "/data")).
Proof.
  assert (Hin : In "/data/sales.csv" (discovered Sample.five_files "/data"))
    by (left; reflexivity).
  split; [reflexivity|]. split; [exact Hin|].
  exact (proj2 (every_discovered_file_is_listed Sample.five_files "/data"
                  "/data/sales.csv" eq_refl Hin)).
Defined.

(** X5: the order in which [glob] lists the files does not matter: a
    listing that is a rearrangement of another gives the same run, line
    for line and sheet for sheet. *)
Theorem listing_order_is_irrelevant (w : World) (listing : string -> list string)
        (folder_path : string) :
  Permutation (discovered w folder_path)
              (listing (Path.join folder_path "*.csv")) ->
  process_folder_csvs (with_listing w listing) folder_path
  = process_folder_csvs w folder_path.
Proof.
  intros Hp. unfold process_folder_csvs.
  change (path_exists (with_listing w listing)) with (path_exists w).
  change (glob (with_listing w listing)) with listing.
  fold (discovered w folder_path).
  set (l := discovered w folder_path) in *.
  set (l' := listing (Path.join folder_path "*.csv")) in *.
  rewrite <- (Permutation_length Hp).
  assert (Hloop : after_loop (with_listing w listing) l' = after_loop w l).
  { unfold after_loop, retained, discovery_report.
    rewrite <- (sort_permutation_eq _ _ Hp). reflexivity. }
  assert (Hrep : discovery_report l' = discovery_report l).
  { unfold discovery_report. now rewrite <- (sort_permutation_eq _ _ Hp). }
  rewrite Hloop, Hrep. reflexivity.
Qed.

Lemma listing_order_is_irrelevant_witness :
  Permutation (discovered Sample.test_folder "/data")
              ["/data/products.csv"; "/data/sales.csv"; "/data/employees.csv"] /\
  process_folder_csvs
    (with_listing Sample.test_folder
       (fun _ => ["/data/products.csv"; "/data/sales.csv"; "/data/employees.csv"]))
    "/data"
  = process_folder_csvs Sample.test_folder "/data".
Proof.
  assert (Hp : Permutation (discovered Sample.test_folder "/data")
                 ["/data/products.csv"; "/data/sales.csv"; "/data/employees.csv"]).
  { exact (perm_trans (perm_skip "/data/sales.csv"
                         (perm_swap "/data/products.csv" "/data/employees.csv" []))
                      (perm_swap "/data/products.csv" "/data/sales.csv"
                         ["/data/employees.csv"])). }
  split; [exact Hp|].
  exact (listing_order_is_irrelevant Sample.test_folder
           (fun _ => ["/data/products.csv"; "/data/sales.csv"; "/data/employees.csv"])
           "/data" Hp).
Defined.

(** X6: whatever the folder holds, the saved workbook has at most three
    sheets and no more sheets than files were found, and no two of its
    sheets have the same title. *)
Theorem at_most_three_distinct_sheets (w : World) (folder_path : string) :
  let sheets := saved_sheets (process_folder_csvs w folder_path) in
  List.length sheets <= 3 /\
  List.length sheets <= List.length (discovered w folder_path) /\
  NoDup (sheet_names sheets).
Proof.
  cbv zeta.
  destruct (saved_sheets_after_loop w folder_path) as [-> | ->].
  - simpl. repeat split; try lia. constructor.
  - destruct (loop_sheets w (retained (discovered w folder_path))
                (mkState (discovery_report (discovered w folder_path)) 1 [])
                (NoDup_nil _)) as [Hnd Hlen].
    fold (after_loop w (discovered w folder_path)) in Hnd, Hlen.
    cbn [book List.length] in Hlen. rewrite retained_length in Hlen.
    repeat split; try lia. exact Hnd.
Qed.

(** X8: a workbook is saved only by a run that returns normally: the save
    is at the computed path, of the workbook the loop has built, and the
    last line printed is [Excel file created at: <path>]. *)
Theorem saved_means_returned (w : World) (folder_path path : string)
        (b : Workbook) :
  In (Saved path b) (events (process_folder_csvs w folder_path)) ->
  outcome (process_folder_csvs w folder_path) = None /\
  path = excel_path_of w folder_path /\
  b = book (after_loop w (discovered w folder_path)) /\
  last (stdout (process_folder_csvs w folder_path)) ""
  = "Excel file created at: " ++ path.
Proof.
  unfold process_folder_csvs. fold (discovered w folder_path).
  destruct (negb (path_exists w folder_path)); [intros []|].
  destruct (Nat.eqb _ 0); [intros []|].
  destruct (writer_open w _); [intros []|].
  destruct (writer_close w _ _).
  - intros [H | []]. discriminate H.
  - intros [H | [H | []]]; [discriminate H|]. injection H as <- <-.
    cbn [outcome stdout]. rewrite last_last. repeat split.
Qed.

Lemma saved_means_returned_witness :
  In (Saved "/data/test-data-load-20240101-090507.xlsx"
        (book (after_loop Sample.test_folder (discovered Sample.test_folder "/data"))))
     (events (process_folder_csvs Sample.test_folder "/data")) /\
  last (stdout (process_folder_csvs Sample.test_folder "/data")) ""
  = "Excel file created at: /data/test-data-load-20240101-090507.xlsx".
Proof.
  assert (H : In (Saved "/data/test-data-load-20240101-090507.xlsx"
                    (book (after_loop Sample.test_folder
                             (discovered Sample.test_folder "/data"))))
                 (events (process_folder_csvs Sample.test_folder "/data")))
    by (right; left; reflexivity).
  split; [exact H|].
  exact (proj2 (proj2 (proj2 (saved_means_returned Sample.test_folder "/data" _ _ H)))).
Defined.

(** X9: an exception that reaches the caller was raised by the writer,
    and then nothing has been saved.  Either [pd.ExcelWriter] raised it:
    no file-system event, and only the discovery report is printed, no
    file having been read; or leaving the [with] block raised it: the file
    was created but not saved, and the closing line is not printed. *)
Theorem exception_means_nothing_saved (w : World) (folder_path : string) (e : exn) :
  outcome (process_folder_csvs w folder_path) = Some e ->
  let r := process_folder_csvs w folder_path in
  let ep := excel_path_of w folder_path in
  saved_sheets r = [] /\
  ((writer_open w ep = Some e /\ events r = [] /\
    stdout r = discovery_report (discovered w folder_path)) \/
   (writer_open w ep = None /\
    writer_close w ep (book (after_loop w (discovered w folder_path))) = Some e /\
    events r = [Created ep] /\
    stdout r = out (after_loop w (discovered w folder_path)))).
Proof.
  cbv zeta. unfold saved_sheets, process_folder_csvs.
  fold (discovered w folder_path).
  destruct (negb (path_exists w folder_path)); [discriminate|].
  destruct (Nat.eqb _ 0); [discriminate|].
  destruct (writer_open w _) as [e1|] eqn:Ho.
  - intros H. injection H as <-. split; [reflexivity|]. left. repeat split.
  - destruct (writer_close w _ _) as [e2|] eqn:Hc; [|discriminate].
    intros H. injection H as <-. split; [reflexivity|]. right. repeat split.
Qed.

Lemma exception_means_nothing_saved_witness :
  outcome (process_folder_csvs Sample.only_empty "/data")
  = Some Sample.no_visible_sheet /\
  saved_sheets (process_folder_csvs Sample.only_empty "/data") = [].
Proof.
  split; [reflexivity|].
  exact (proj1 (exception_means_nothing_saved Sample.only_empty "/data"
                  Sample.no_visible_sheet eq_refl)).
Defined.

(** X10: the clock is read once for the name of the workbook and once
    more for each retained file that loads and whose table has no [seqno]
    column, whether or not its sheet is then written; files that fail
    earlier do not read it. *)
Theorem clock_reads (w : World) (csv_files : list string) :
  ticks (after_loop w csv_files)
  = 1 + List.length (filter (reaches_clock w) (retained csv_files)).
Proof. unfold after_loop. now rewrite loop_ticks. Qed.

(* ------------------------------------------------------------------ *)
(** ** The table that is written *)

Section WrittenTable.

Lemma setitem_rectangular (name : string) (v : cell) (df : DataFrame) :
  rectangular df -> rectangular (DF.setitem name v df).
Proof.
  unfold rectangular, DF.setitem. intros H.
  destruct (DF.has_column name df); simpl.
  - apply Forall_map. apply (Forall_impl _ (P := fun col => List.length (snd col) = nrows df));
      [|exact H].
    intros col Hc. destruct (String.eqb name (fst col)); simpl;
      [apply repeat_length | exact Hc].
  - apply Forall_app. split; [exact H|].
    constructor; [apply repeat_length | constructor].
Qed.

Lemma augmented_rectangular (ts : string) (df : DataFrame) :
  rectangular df -> rectangular (augmented ts df).
Proof.
  intros H. unfold augmented, add_timestamps.
  apply setitem_rectangular, setitem_rectangular.
  unfold rectangular, with_seqno. simpl.
  constructor; [apply range_from_1_length | exact H].
Qed.

Lemma columns_named_with_seqno (other : string) (df : DataFrame) :
  String.eqb other "seqno" = false ->
  columns_named other (with_seqno df) = columns_named other df.
Proof. intros H. unfold columns_named, with_seqno. simpl. now rewrite H. Qed.

Lemma augmented_keeps_data (ts other : string) (df : DataFrame) :
  String.eqb other "seqno" = false ->
  String.eqb other "create_ts" = false ->
  String.eqb other "updt_ts" = false ->
  columns_named other (augmented ts df) = columns_named other df.
Proof.
  intros H1 H2 H3. unfold augmented, add_timestamps.
  rewrite !columns_named_setitem_other by assumption.
  now apply columns_named_with_seqno.
Qed.

End WrittenTable.

(** X11: lines 56 to 62 keep the table rectangular: when the loaded
    table has one entry per row in each column, so has the table handed to
    [to_excel], the three added columns included, and it has as many rows
    as the loaded one. *)
Theorem written_table_is_rectangular (w : World) (st : State)
        (csv_file : string) (df0 : DataFrame) :
  read_csv w csv_file = inr df0 ->
  DF.has_column "seqno" df0 = false ->
  rectangular df0 ->
  let handed := augmented (strftime_column (now w (ticks st))) df0 in
  sheet_error w (sheet_name_of csv_file) handed = None ->
  book (process_file w st csv_file)
  = add_table (book st) (sheet_name_of csv_file) handed /\
  rectangular handed /\
  nrows handed = nrows df0.
Proof.
  intros Hr Hs Hrect handed He.
  split; [exact (proj1 (process_file_written w st csv_file df0 Hr Hs He))|].
  split; [now apply augmented_rectangular | apply nrows_augmented].
Qed.

Lemma written_table_is_rectangular_witness :
  read_csv Sample.test_folder "/data/employees.csv" = inr Sample.employees /\
  DF.has_column "seqno" Sample.employees = false /\
  rectangular Sample.employees /\
  rectangular (augmented "2024-01-01 09:05AM" Sample.employees).
Proof.
  assert (Hrect : rectangular Sample.employees)
    by (unfold rectangular; simpl; repeat constructor).
  split; [reflexivity|]. split; [reflexivity|]. split; [exact Hrect|].
  exact (proj1 (proj2 (written_table_is_rectangular Sample.test_folder
                         (mkState [] 1 []) "/data/employees.csv" Sample.employees
                         eq_refl eq_refl Hrect eq_refl))).
Defined.

(** X12: lines 56 to 62 do not touch the data: in the table handed to
    [to_excel], the columns of any name other than [seqno], [create_ts]
    and [updt_ts] are those of the loaded table, values and order. *)
Theorem data_columns_are_untouched (w : World) (st : State)
        (csv_file other : string) (df0 : DataFrame) :
  read_csv w csv_file = inr df0 ->
  DF.has_column "seqno" df0 = false ->
  other <> "seqno" -> other <> "create_ts" -> other <> "updt_ts" ->
  let handed := augmented (strftime_column (now w (ticks st))) df0 in
  sheet_error w (sheet_name_of csv_file) handed = None ->
  book (process_file w st csv_file)
  = add_table (book st) (sheet_name_of csv_file) handed /\
  columns_named other handed = columns_named other df0.
Proof.
  intros Hr Hs H1 H2 H3 handed He.
  split; [exact (proj1 (process_file_written w st csv_file df0 Hr Hs He))|].
  apply augmented_keeps_data; now apply String.eqb_neq.
Qed.

Lemma data_columns_are_untouched_witness :
  read_csv Sample.test_folder "/data/employees.csv" = inr Sample.employees /\
  DF.has_column "seqno" Sample.employees = false /\
  columns_named "City" (augmented "2024-01-01 09:05AM" Sample.employees)
  = columns_named "City" Sample.employees.
Proof.
  split; [reflexivity|]. split; [reflexivity|].
  refine (proj2 (data_columns_are_untouched Sample.test_folder
                   (mkState [] 1 []) "/data/employees.csv" "City" Sample.employees
                   eq_refl eq_refl _ _ _ eq_refl)); discriminate.
Defined.

(* ------------------------------------------------------------------ *)
(** ** Sheet names and base names *)

Section SheetNames.

Lemma take_drop (n : nat) (s : string) : Str.take n s ++ Str.drop n s = s.
Proof.
  revert s. induction n as [|n IH]; intros [|c s]; simpl; try reflexivity.
  now rewrite IH.
Qed.

Lemma take_all (n : nat) (s : string) :
  String.length s <= n -> Str.take n s = s.
Proof.
  revert s. induction n as [|n IH]; intros [|c s]; simpl; try reflexivity; try lia.
  intros H. rewrite IH by lia. reflexivity.
Qed.

Lemma splitext_joins (p : string) :
  fst (Path.splitext p) ++ snd (Path.splitext p) = p.
Proof.
  unfold Path.splitext. destruct (Str.rfind Path.extsep p) as [d|].
  - destruct (Nat.leb _ _ && Path.skip_leading_dots _ _ _); simpl;
      [apply take_drop | apply append_nil_r].
  - simpl. apply append_nil_r.
Qed.

Lemma rfind_none_mem (c : ascii) (s : string) :
  Str.rfind c s = None -> Str.mem c s = false.
Proof.
  induction s as [|a s IH]; simpl; [reflexivity|].
  destruct (Str.rfind c s); [discriminate|].
  destruct (Ascii.eqb a c); [discriminate|]. intros _. now apply IH.
Qed.

Lemma basename_no_sep (p : string) : Str.mem Path.sep (Path.basename p) = false.
Proof.
  unfold Path.basename, Path.after_sep.
  induction p as [|a p IH]; simpl; [reflexivity|].
  destruct (Str.rfind Path.sep p) as [i|] eqn:E.
  - exact IH.
  - destruct (Ascii.eqb a Path.sep) eqn:Ea; simpl.
    + now apply rfind_none_mem.
    + rewrite Ea. simpl. now apply rfind_none_mem.
Qed.

Lemma mem_prefix (c : ascii) (s t : string) :
  Str.mem c (s ++ t) = false -> Str.mem c s = false.
Proof. rewrite mem_app. intros H. now apply orb_false_iff in H as [H _]. Qed.

Lemma splitext_root_nonempty (p : string) :
  p <> "" -> fst (Path.splitext p) <> "".
Proof.
  intros Hp. unfold Path.splitext.
  destruct (Str.rfind Path.extsep p) as [d|]; [|exact Hp].
  destruct (Nat.leb (Path.after_sep p) d
            && Path.skip_leading_dots (d - Path.after_sep p) (Path.after_sep p) p)
    eqn:E; [|exact Hp].
  apply andb_true_iff in E as [_ E]. simpl.
  destruct d as [|d].
  - simpl in E. discriminate E.
  - destruct p as [|c r]; [contradiction|]. simpl. discriminate.
Qed.

End SheetNames.

(** X13: the sheet name of a file is always a beginning of its base name
    and holds no slash; it is empty only when the base name is empty, that
    is for a path ending in a slash. *)
Theorem sheet_name_begins_base_name (csv_file : string) :
  (exists rest, Path.basename csv_file = sheet_name_of csv_file ++ rest) /\
  Str.mem Path.sep (sheet_name_of csv_file) = false /\
  (sheet_name_of csv_file = "" <-> Path.basename csv_file = "").
Proof.
  unfold sheet_name_of.
  set (b := Path.basename csv_file).
  assert (Hb : b = Str.take 31 (fst (Path.splitext b))
                   ++ (Str.drop 31 (fst (Path.splitext b)) ++ snd (Path.splitext b))).
  { rewrite <- append_assoc, take_drop. symmetry. apply splitext_joins. }
  split; [eexists; exact Hb|]. split.
  - apply (mem_prefix _ _ (Str.drop 31 (fst (Path.splitext b))
                             ++ snd (Path.splitext b))).
    rewrite <- Hb. apply basename_no_sep.
  - split.
    + intros H. destruct b as [|c r] eqn:Eb; [reflexivity|]. exfalso.
      assert (Hne : fst (Path.splitext (String c r)) <> "")
        by (apply splitext_root_nonempty; discriminate).
      destruct (fst (Path.splitext (String c r))); [contradiction|].
      simpl in H. discriminate H.
    + intros ->. reflexivity.
Qed.

(** X14: a file [<dir>/<stem>.csv] whose stem has at most 31 characters
    (and, as [*.csv] matches it, is not empty, has no slash and does not
    start with a dot) keeps its whole stem as sheet name; two such files
    with different stems therefore get different sheets. *)
Theorem short_stem_is_kept (dir stem dir' stem' : string) :
  stem <> "" -> Str.mem Path.sep stem = false ->
  Str.starts_with_char Path.extsep stem = false ->
  String.length stem <= 31 ->
  stem' <> "" -> Str.mem Path.sep stem' = false ->
  Str.starts_with_char Path.extsep stem' = false ->
  String.length stem' <= 31 ->
  sheet_name_of (Path.join dir (stem ++ ".csv")) = stem /\
  (stem <> stem' ->
   sheet_name_of (Path.join dir (stem ++ ".csv"))
   <> sheet_name_of (Path.join dir' (stem' ++ ".csv"))).
Proof.
  intros H1 H2 H3 H4 H1' H2' H3' H4'.
  rewrite !sheet_name_of_csv by assumption.
  rewrite !take_all by assumption. split; [reflexivity | auto].
Qed.

Lemma short_stem_is_kept_witness :
  sheet_name_of (Path.join "/data" ("employees" ++ ".csv")) = "employees" /\
  sheet_name_of (Path.join "/data" ("employees" ++ ".csv"))
  <> sheet_name_of (Path.join "/data" ("sales" ++ ".csv")).
Proof.
  assert (H : forall stem : string, In stem ["employees"; "sales"] ->
              stem <> "" /\ Str.mem Path.sep stem = false /\
              Str.starts_with_char Path.extsep stem = false /\
              String.length stem <= 31).
  { intros stem [<- | [<- | []]]; repeat split; try discriminate; simpl; lia. }
  destruct (H "employees" (or_introl eq_refl)) as (A1 & A2 & A3 & A4).
  destruct (H "sales" (or_intror (or_introl eq_refl))) as (B1 & B2 & B3 & B4).
  pose proof (short_stem_is_kept "/data" "employees" "/data" "sales"
                A1 A2 A3 A4 B1 B2 B3 B4) as [K1 K2].
  split; [exact K1 | apply K2; discriminate].
Defined.

(* ------------------------------------------------------------------ *)
(** ** Reading the fields back from a timestamp *)

Section TimestampFields.

Lemma digit_inj (a b : nat) : Str.digit a = Str.digit b -> a mod 10 = b mod 10.
Proof.
  intros H. apply (f_equal nat_of_ascii) in H. rewrite !digit_code in H. lia.
Qed.

Lemma digits2 (n : nat) : n < 100 -> n = 10 * ((n / 10) mod 10) + n mod 10.
Proof.
  intros H. assert (n / 10 < 10) by (apply Nat.Div0.div_lt_upper_bound; lia).
  rewrite (Nat.mod_small (n / 10) 10) by assumption. apply Nat.div_mod_eq.
Qed.

Lemma digits4 (n : nat) :
  n < 100 * 100 ->
  n = 1000 * ((n / 1000) mod 10) + 100 * ((n / 100) mod 10)
      + 10 * ((n / 10) mod 10) + n mod 10.
Proof.
  intros H.
  pose proof (Nat.div_mod_eq n 10) as E0.
  pose proof (Nat.div_mod_eq (n / 10) 10) as E1.
  pose proof (Nat.div_mod_eq (n / 10 / 10) 10) as E2.
  rewrite !Nat.Div0.div_div in E1, E2.
  change (10 * 10) with 100 in *.
  rewrite ?(Nat.Div0.div_div n 100 10) in E2. change (100 * 10) with 1000 in *.
  assert (n / 1000 < 10) by (apply Nat.Div0.div_lt_upper_bound; lia).
  rewrite (Nat.mod_small (n / 1000) 10) by assumption.
  lia.
Qed.

Lemma two_digits_inj (n m : nat) :
  n < 100 -> m < 100 ->
  (n / 10) mod 10 = (m / 10) mod 10 -> n mod 10 = m mod 10 -> n = m.
Proof. intros Hn Hm H1 H0. rewrite (digits2 n Hn), (digits2 m Hm). lia. Qed.

Lemma four_digits_inj (n m : nat) :
  n < 100 * 100 -> m < 100 * 100 ->
  (n / 1000) mod 10 = (m / 1000) mod 10 ->
  (n / 100) mod 10 = (m / 100) mod 10 ->
  (n / 10) mod 10 = (m / 10) mod 10 -> n mod 10 = m mod 10 -> n = m.
Proof.
  intros Hn Hm H3 H2 H1 H0. rewrite (digits4 n Hn), (digits4 m Hm). lia.
Qed.

(** The hour of the day from its 12-hour form and its half of the day. *)
Lemma hour_inj (h k : nat) :
  h < 24 -> k < 24 ->
  Nat.ltb h 12 = Nat.ltb k 12 -> hour12 h = hour12 k -> h = k.
Proof.
  unfold hour12. intros Hh Hk H1 H2.
  pose proof (Nat.div_mod_eq h 12). pose proof (Nat.div_mod_eq k 12).
  pose proof (Nat.mod_upper_bound h 12). pose proof (Nat.mod_upper_bound k 12).
  assert (h / 12 < 2) by (apply Nat.Div0.div_lt_upper_bound; lia).
  assert (k / 12 < 2) by (apply Nat.Div0.div_lt_upper_bound; lia).
  destruct (Nat.ltb_spec h 12), (Nat.ltb_spec k 12); try discriminate;
    destruct (Nat.eqb_spec (h mod 12) 0), (Nat.eqb_spec (k mod 12) 0); lia.
Qed.

(** The digit at index [i] of two equal strings. *)
Ltac digit_at H i :=
  let E := fresh "E" in
  pose proof (f_equal (String.get i) H) as E;
  cbn [String.get String.append] in E;
  injection E as E; apply digit_inj in E.

Lemma strftime_file_fields (t1 t2 : DateTime) (rest : string) :
  valid_datetime t1 -> valid_datetime t2 ->
  strftime_file t1 ++ rest = strftime_file t2 ++ rest -> t1 = t2.
Proof.
  intros (Hy1 & Hm1 & Hd1 & Hh1 & Hn1 & Hs1) (Hy2 & Hm2 & Hd2 & Hh2 & Hn2 & Hs2) H.
  unfold strftime_file, Str.pad4, Str.pad2 in H. cbn [String.append] in H.
  digit_at H 0. digit_at H 1. digit_at H 2. digit_at H 3.
  digit_at H 4. digit_at H 5. digit_at H 6. digit_at H 7.
  digit_at H 9. digit_at H 10. digit_at H 11. digit_at H 12.
  digit_at H 13. digit_at H 14.
  destruct t1 as [y1 m1 d1 h1 n1 s1], t2 as [y2 m2 d2 h2 n2 s2]. simpl in *.
  assert (y1 = y2) by (apply four_digits_inj; lia || assumption).
  assert (m1 = m2) by (apply two_digits_inj; lia || assumption).
  assert (d1 = d2) by (apply two_digits_inj; lia || assumption).
  assert (h1 = h2) by (apply two_digits_inj; lia || assumption).
  assert (n1 = n2) by (apply two_digits_inj; lia || assumption).
  assert (s1 = s2) by (apply two_digits_inj; lia || assumption).
  congruence.
Qed.

Lemma strftime_column_fields (t1 t2 : DateTime) :
  valid_datetime t1 -> valid_datetime t2 ->
  strftime_column t1 = strftime_column t2 ->
  year t1 = year t2 /\ month t1 = month t2 /\ day t1 = day t2 /\
  hour t1 = hour t2 /\ minute t1 = minute t2.
Proof.
  intros (Hy1 & Hm1 & Hd1 & Hh1 & Hn1 & Hs1) (Hy2 & Hm2 & Hd2 & Hh2 & Hn2 & Hs2) H.
  pose proof (hour12_range (hour t1)). pose proof (hour12_range (hour t2)).
  assert (Hap : Nat.ltb (hour t1) 12 = Nat.ltb (hour t2) 12).
  { unfold strftime_column, Str.pad4, Str.pad2, am_pm in H.
    cbn [String.append] in H.
    pose proof (f_equal (String.get 16) H) as E.
    destruct (Nat.ltb (hour t1) 12), (Nat.ltb (hour t2) 12);
      cbn [String.get String.append] in E; congruence. }
  unfold strftime_column, Str.pad4, Str.pad2 in H. cbn [String.append] in H.
  digit_at H 0. digit_at H 1. digit_at H 2. digit_at H 3.
  digit_at H 5. digit_at H 6. digit_at H 8. digit_at H 9.
  digit_at H 11. digit_at H 12. digit_at H 14. digit_at H 15.
  assert (Hh : hour12 (hour t1) = hour12 (hour t2))
    by (apply two_digits_inj; lia || assumption).
  repeat split.
  - apply four_digits_inj; lia || assumption.
  - apply two_digits_inj; lia || assumption.
  - apply two_digits_inj; lia || assumption.
  - now apply hour_inj.
  - apply two_digits_inj; lia || assumption.
Qed.

Lemma append_inv_head (s a b : string) : s ++ a = s ++ b -> a = b.
Proof.
  induction s as [|c s IH]; simpl; [auto|]. intros H. injection H as H. auto.
Qed.

(** [join] puts one and the same text in front of every relative name. *)
Lemma join_prefix (a : string) :
  exists pre, forall name,
    Str.starts_with_char Path.sep name = false -> Path.join a name = pre ++ name.
Proof.
  destruct (String.eqb a "" || Str.ends_with "/" a) eqn:E.
  - exists a. intros name H. unfold Path.join. now rewrite H, E.
  - exists (a ++ "/"). intros name H. unfold Path.join. rewrite H, E.
    now rewrite append_assoc.
Qed.

End TimestampFields.

(** X15: the name of the workbook tells the second at which the run
    started: two runs on the same folder whose clocks (valid dates) stood
    at different seconds write to different paths, so a later run does
    not overwrite the workbook of an earlier one. *)
Theorem workbook_path_identifies_the_second (w w' : World) (folder_path : string) :
  valid_datetime (now w 0) -> valid_datetime (now w' 0) ->
  now w 0 <> now w' 0 ->
  excel_path_of w folder_path <> excel_path_of w' folder_path.
Proof.
  intros Hv Hv' Hne H. apply Hne. unfold excel_path_of in H.
  destruct (join_prefix folder_path) as [pre Hpre].
  rewrite !Hpre in H by reflexivity.
  apply append_inv_head in H. apply (append_inv_head "test-data-load-") in H.
  now apply (strftime_file_fields _ _ ".xlsx").
Qed.

Lemma workbook_path_identifies_the_second_witness :
  valid_datetime (now Sample.test_folder 0) /\
  valid_datetime (now Sample.a_second_later 0) /\
  now Sample.test_folder 0 <> now Sample.a_second_later 0 /\
  excel_path_of Sample.test_folder "/data"
  <> excel_path_of Sample.a_second_later "/data".
Proof.
  assert (Hv : valid_datetime (now Sample.test_folder 0))
    by (unfold valid_datetime; simpl; repeat split; lia).
  assert (Hv' : valid_datetime (now Sample.a_second_later 0))
    by (unfold valid_datetime; simpl; repeat split; lia).
  assert (Hne : now Sample.test_folder 0 <> now Sample.a_second_later 0)
    by discriminate.
  split; [exact Hv|]. split; [exact Hv'|]. split; [exact Hne|].
  exact (workbook_path_identifies_the_second Sample.test_folder
           Sample.a_second_later "/data" Hv Hv' Hne).
Defined.

(** X16: the text of the timestamp columns tells the minute, and nothing
    finer: for valid dates, equal texts mean equal year, month, day, hour
    of the day (the 12-hour form and AM/PM together give it back) and
    minute; two readings within one minute give the same text. *)
Theorem column_timestamp_identifies_the_minute (t1 t2 : DateTime) :
  valid_datetime t1 -> valid_datetime t2 ->
  (strftime_column t1 = strftime_column t2 <->
   year t1 = year t2 /\ month t1 = month t2 /\ day t1 = day t2 /\
   hour t1 = hour t2 /\ minute t1 = minute t2).
Proof.
  intros H1 H2. split.
  - now apply strftime_column_fields.
  - intros (Ey & Em & Ed & Eh & En). unfold strftime_column.
    now rewrite Ey, Em, Ed, Eh, En.
Qed.

Lemma column_timestamp_identifies_the_minute_witness :
  valid_datetime Sample.morning /\
  valid_datetime (mkDateTime 2024 1 1 9 5 8) /\
  strftime_column Sample.morning = strftime_column (mkDateTime 2024 1 1 9 5 8).
Proof.
  assert (Hv : valid_datetime Sample.morning)
    by (unfold valid_datetime; simpl; repeat split; lia).
  assert (Hv' : valid_datetime (mkDateTime 2024 1 1 9 5 8))
    by (unfold valid_datetime; simpl; repeat split; lia).
  split; [exact Hv|]. split; [exact Hv'|].
  apply (proj2 (column_timestamp_identifies_the_minute _ _ Hv Hv')).
  repeat split.
Defined.

(* ------------------------------------------------------------------ *)
(** ** The entry point *)

Section Strip.

Lemma lstrip_all_space (pre s : string) :
  Text.all_space pre = true -> Text.lstrip (pre ++ s) = Text.lstrip s.
Proof.
  induction pre as [|c pre IH]; simpl; [reflexivity|].
  intros H. apply andb_true_iff in H as [Hc Hp]. rewrite Hc. now apply IH.
Qed.

Lemma lstrip_fixed (s : string) :
  Text.starts_with_space s = false -> Text.lstrip s = s.
Proof. destruct s as [|c r]; simpl; [reflexivity|]. now intros ->. Qed.

Lemma rstrip_all_space (post : string) :
  Text.all_space post = true -> Text.rstrip post = "".
Proof.
  induction post as [|c post IH]; simpl; [reflexivity|].
  intros H. apply andb_true_iff in H as [Hc Hp]. now rewrite (IH Hp), Hc.
Qed.

Lemma rstrip_app_space (s post : string) :
  Text.all_space post = true -> Text.rstrip (s ++ post) = Text.rstrip s.
Proof.
  intros H. induction s as [|c s IH]; simpl.
  - now apply rstrip_all_space.
  - now rewrite IH.
Qed.

Lemma rstrip_fixed (s : string) :
  Text.ends_with_space s = false -> Text.rstrip s = s.
Proof.
  induction s as [|c s IH]; [reflexivity|].
  destruct s as [|d s].
  - simpl. now intros ->.
  - intros H. change (Text.ends_with_space (String d s) = false) in H.
    change (Text.rstrip (String c (String d s)))
      with (match Text.rstrip (String d s) with
            | EmptyString =>
                if Text.is_space c then EmptyString else String c EmptyString
            | String a r => String c (String a r)
            end).
    now rewrite (IH H).
Qed.

Lemma starts_with_space_app (s t : string) :
  s <> "" -> Text.starts_with_space (s ++ t) = Text.starts_with_space s.
Proof. destruct s; [contradiction | reflexivity]. Qed.

Lemma strip_surrounded (pre core post : string) :
  Text.all_space pre = true -> Text.all_space post = true ->
  Text.starts_with_space core = false -> Text.ends_with_space core = false ->
  Text.strip (pre ++ core ++ post) = core.
Proof.
  intros Hpre Hpost Hs He. unfold Text.strip.
  rewrite (lstrip_all_space _ _ Hpre).
  destruct core as [|c r].
  - simpl. assert (E : Text.lstrip post = "").
    { clear -Hpost. induction post as [|c post IH]; simpl; [reflexivity|].
      simpl in Hpost. apply andb_true_iff in Hpost as [Hc Hp].
      rewrite Hc. now apply IH. }
    now rewrite E.
  - rewrite lstrip_fixed by (rewrite starts_with_space_app; [exact Hs | discriminate]).
    rewrite (rstrip_app_space _ _ Hpost). now apply rstrip_fixed.
Qed.

End Strip.

(** X17: whitespace typed around the folder path does not matter: the
    entry point strips it, so a path that itself neither begins nor ends
    with whitespace gives the same run with or without it; whitespace
    inside the path is kept. *)
Theorem surrounding_whitespace_is_ignored (w : World) (pre core post : string) :
  Text.all_space pre = true -> Text.all_space post = true ->
  Text.starts_with_space core = false -> Text.ends_with_space core = false ->
  main w (pre ++ core ++ post) = (prompt, process_folder_csvs w core).
Proof.
  intros Hpre Hpost Hs He. unfold main.
  now rewrite (strip_surrounded _ _ _ Hpre Hpost Hs He).
Qed.

Lemma surrounding_whitespace_is_ignored_witness :
  Text.all_space "  " = true /\
  Text.starts_with_space "/my data" = false /\
  Text.ends_with_space "/my data" = false /\
  main Sample.test_folder ("  " ++ "/my data" ++ "  ")
  = (prompt, process_folder_csvs Sample.test_folder "/my data").
Proof.
  split; [reflexivity|]. split; [reflexivity|]. split; [reflexivity|].
  exact (surrounding_whitespace_is_ignored Sample.test_folder "  " "/my data" "  "
           eq_refl eq_refl eq_refl eq_refl).
Defined.

(** X18: an answer of whitespace only, or no answer at all, is stripped
    to the empty path; nothing exists at the empty path, so the run
    prints [Error: Folder '' does not exist] and touches no file. *)
Theorem blank_answer_reports_missing_folder (w : World) (typed : string) :
  Text.all_space typed = true ->
  path_exists w "" = false ->
  main w typed = (prompt, mkRun None ["Error: Folder '' does not exist"] []).
Proof.
  intros Hs He. unfold main.
  replace typed with (typed ++ "" ++ "") by (simpl; apply append_nil_r).
  rewrite (strip_surrounded typed "" "" Hs eq_refl eq_refl eq_refl).
  unfold process_folder_csvs. now rewrite He.
Qed.

Lemma blank_answer_reports_missing_folder_witness :
  Text.all_space "   " = true /\
  path_exists Sample.test_folder "" = false /\
  main Sample.test_folder "   "
  = (prompt, mkRun None ["Error: Folder '' does not exist"] []).
Proof.
  split; [reflexivity|]. split; [reflexivity|].
  exact (blank_answer_reports_missing_folder Sample.test_folder "   "
           eq_refl eq_refl).
Defined.

(* ------------------------------------------------------------------ *)
(** ** The cap *)

Section Cap.

Lemma sort_StronglySorted (l : list string) : StronglySorted path_le (sort l).
Proof.
  apply Sorted_StronglySorted; [|apply sort_Sorted].
  intros a b c. apply path_le_trans.
Qed.

Lemma StronglySorted_firstn_skipn (n : nat) (l : list string) (a b : string) :
  StronglySorted path_le l ->
  In a (firstn n l) -> In b (skipn n l) -> path_le a b.
Proof.
  intros Hs. revert n. induction Hs as [|x l Hl IH Hx]; intros n Ha Hb.
  - destruct n; simpl in Ha; contradiction.
  - destruct n as [|n]; simpl in Ha, Hb; [contradiction|].
    destruct Ha as [<- | Ha].
    + rewrite Forall_forall in Hx. apply Hx.
      rewrite <- (firstn_skipn n l). apply in_or_app. now right.
    + now apply (IH n).
Qed.

End Cap.

(** X19: the cap keeps the smallest paths: every retained file comes, in
    string order, before or at every discovered file that is left out. *)
Theorem cap_keeps_the_smallest (csv_files : list string) (kept dropped : string) :
  In kept (retained csv_files) ->
  In dropped csv_files ->
  ~ In dropped (retained csv_files) ->
  path_le kept dropped.
Proof.
  rewrite retained_firstn. intros Hk Hd Hn.
  apply (StronglySorted_firstn_skipn 3 (sort csv_files));
    [apply sort_StronglySorted | exact Hk |].
  apply (Permutation_in _ (sort_perm csv_files)) in Hd.
  rewrite <- (firstn_skipn 3 (sort csv_files)) in Hd.
  apply in_app_or in Hd as [Hd | Hd]; [contradiction | exact Hd].
Qed.

Lemma cap_keeps_the_smallest_witness :
  In "/data/extra2.csv" (retained (discovered Sample.five_files "/data")) /\
  In "/data/sales.csv" (discovered Sample.five_files "/data") /\
  ~ In "/data/sales.csv" (retained (discovered Sample.five_files "/data")) /\
  path_le "/data/extra2.csv" "/data/sales.csv".
Proof.
  assert (Hk : In "/data/extra2.csv" (retained (discovered Sample.five_files "/data")))
    by (right; right; left; reflexivity).
  assert (Hd : In "/data/sales.csv" (discovered Sample.five_files "/data"))
    by (left; reflexivity).
  assert (Hn : ~ In "/data/sales.csv" (retained (discovered Sample.five_files "/data")))
    by (simpl; intuition discriminate).
  split; [exact Hk|]. split; [exact Hd|]. split; [exact Hn|].
  exact (cap_keeps_the_smallest _ _ _ Hk Hd Hn).
Defined.

(* ------------------------------------------------------------------ *)
(** ** Files that are not retained *)

Section Unread.

Lemma process_file_reader (w : World) (reader : string -> exn + DataFrame)
      (st : State) (csv_file : string) :
  reader csv_file = read_csv w csv_file ->
  process_file (with_reader w reader) st csv_file = process_file w st csv_file.
Proof.
  intros H. unfold process_file, try_body.
  change (read_csv (with_reader w reader) csv_file) with (reader csv_file).
  rewrite H. reflexivity.
Qed.

Lemma loop_reader (w : World) (reader : string -> exn + DataFrame)
      (files : list string) (st : State) :
  (forall f, In f files -> reader f = read_csv w f) ->
  fold_left (process_file (with_reader w reader)) files st
  = fold_left (process_file w) files st.
Proof.
  revert st. induction files as [|f rest IH]; intros st H; simpl; [reflexivity|].
  rewrite process_file_reader by (apply H; now left).
  apply IH. intros g Hg. apply H. now right.
Qed.

End Unread.

(** X20: only the retained files are read: whatever [read_csv] would
    return for any other path, among them the discovered files beyond
    the first three, has no influence on the run. *)
Theorem other_files_are_never_read (w : World)
        (reader : string -> exn + DataFrame) (folder_path : string) :
  (forall f, In f (retained (discovered w folder_path)) ->
             reader f = read_csv w f) ->
  process_folder_csvs (with_reader w reader) folder_path
  = process_folder_csvs w folder_path.
Proof.
  intros H. unfold process_folder_csvs.
  change (path_exists (with_reader w reader)) with (path_exists w).
  change (glob (with_reader w reader)) with (glob w).
  fold (discovered w folder_path).
  assert (E : after_loop (with_reader w reader) (discovered w folder_path)
              = after_loop w (discovered w folder_path)).
  { unfold after_loop. now apply loop_reader. }
  rewrite E. reflexivity.
Qed.

Lemma other_files_are_never_read_witness :
  (forall f, In f (retained (discovered Sample.five_files "/data")) ->
     (if String.eqb f "/data/sales.csv" then inl Sample.empty_data
      else read_csv Sample.five_files f)
     = read_csv Sample.five_files f) /\
  process_folder_csvs
    (with_reader Sample.five_files
       (fun f => if String.eqb f "/data/sales.csv" then inl Sample.empty_data
                 else read_csv Sample.five_files f))
    "/data"
  = process_folder_csvs Sample.five_files "/data".
Proof.
  assert (H : forall f, In f (retained (discovered Sample.five_files "/data")) ->
                (if String.eqb f "/data/sales.csv" then inl Sample.empty_data
                 else read_csv Sample.five_files f)
                = read_csv Sample.five_files f).
  { intros f [<- | [<- | [<- | []]]]; reflexivity. }
  split; [exact H|].
  exact (other_files_are_never_read Sample.five_files
           (fun f => if String.eqb f "/data/sales.csv" then inl Sample.empty_data
                     else read_csv Sample.five_files f)
           "/data" H).
Defined.

(* ------------------------------------------------------------------ *)
(** ** [test_dataframe_structure] *)

Section StructureTest.

Lemma py_get_neg (l : list string) (k : nat) :
  1 <= k <= List.length l ->
  py_get l (- Z.of_nat k) = nth_error l (List.length l - k).
Proof.
  intros H. unfold py_get. cbv zeta.
  assert (E1 : (- Z.of_nat k <? 0)%Z = true) by (apply Z.ltb_lt; lia).
  rewrite E1.
  assert (E2 : (0 <=? Z.of_nat (List.length l) + - Z.of_nat k)%Z = true)
    by (apply Z.leb_le; lia).
  assert (E3 : (Z.of_nat (List.length l) + - Z.of_nat k
                <? Z.of_nat (List.length l))%Z = true)
    by (apply Z.ltb_lt; lia).
  rewrite E2, E3. cbn [andb]. f_equal. lia.
Qed.

Lemma py_get_last (l : list string) (a b : string) :
  py_get (List.app l [a; b]) (-1) = Some b /\
  py_get (List.app l [a; b]) (-2) = Some a.
Proof.
  assert (Hl : List.length (List.app l [a; b]) = List.length l + 2)
    by (rewrite length_app; reflexivity).
  split.
  - change (-1)%Z with (- Z.of_nat 1)%Z. rewrite py_get_neg by lia.
    rewrite Hl, nth_error_app2 by lia.
    replace (List.length l + 2 - 1 - List.length l) with 1 by lia. reflexivity.
  - change (-2)%Z with (- Z.of_nat 2)%Z. rewrite py_get_neg by lia.
    rewrite Hl, nth_error_app2 by lia.
    replace (List.length l + 2 - 2 - List.length l) with 0 by lia. reflexivity.
Qed.

Lemma names_length (df : DataFrame) :
  List.length (DF.names df) = List.length (columns df).
Proof. unfold DF.names. apply length_map. Qed.

End StructureTest.

(** X21: [test_dataframe_structure] passes exactly for the tables that
    have none of the three bookkeeping names: with a [seqno] column the
    insertion raises, and with [create_ts] or [updt_ts] already there the
    column count is not the original plus three. *)
Theorem structure_test_passes_iff (df : DataFrame) :
  test_dataframe_structure df = Passed <->
  DF.has_column "seqno" df = false /\
  DF.has_column "create_ts" df = false /\
  DF.has_column "updt_ts" df = false.
Proof.
  unfold test_dataframe_structure.
  destruct (DF.has_column "seqno" df) eqn:Hs.
  - rewrite (insert0_seqno_taken _ Hs). split; [discriminate | intros [H _]; discriminate].
  - rewrite (insert0_seqno_fresh _ Hs).
    fold (add_timestamps "2024-01-01 10:30AM" (with_seqno df)).
    fold (augmented "2024-01-01 10:30AM" df).
    rewrite nrows_augmented, Nat.eqb_refl.
    rewrite <- !names_length, (augmented_names "2024-01-01 10:30AM" df).
    destruct (DF.has_column "create_ts" df) eqn:Hc;
      destruct (DF.has_column "updt_ts" df) eqn:Hu;
      cbn [List.app List.length]; rewrite ?length_app; cbn [List.length].
    + replace (S (List.length (DF.names df) + 0) =? List.length (DF.names df) + 3)%nat
        with false by (symmetry; apply Nat.eqb_neq; lia).
      simpl. split; [discriminate | intros (_ & H & _); discriminate].
    + replace (S (List.length (DF.names df) + 1) =? List.length (DF.names df) + 3)%nat
        with false by (symmetry; apply Nat.eqb_neq; lia).
      simpl. split; [discriminate | intros (_ & H & _); discriminate].
    + replace (S (List.length (DF.names df) + 1) =? List.length (DF.names df) + 3)%nat
        with false by (symmetry; apply Nat.eqb_neq; lia).
      simpl. split; [discriminate | intros (_ & _ & H); discriminate].
    + replace (S (List.length (DF.names df) + 2) =? List.length (DF.names df) + 3)%nat
        with true by (symmetry; apply Nat.eqb_eq; lia).
      cbn [negb].
      change ("seqno" :: List.app (DF.names df) ["create_ts"; "updt_ts"])
        with (List.app ("seqno" :: DF.names df) ["create_ts"; "updt_ts"]).
      destruct (py_get_last ("seqno" :: DF.names df) "create_ts" "updt_ts")
        as [E1 E2].
      rewrite E1, E2. simpl. split; [intros _; repeat split | reflexivity].
Qed.

Lemma structure_test_passes_witness :
  test_dataframe_structure Sample.employees = Passed /\
  test_dataframe_structure Sample.stamped = Failed.
Proof.
  split; [|reflexivity].
  apply (proj2 (structure_test_passes_iff Sample.employees)).
  repeat split.
Defined.

(* ------------------------------------------------------------------ *)
(** ** What [strip] leaves *)

Section StripShape.

Lemma lstrip_splits (s : string) :
  exists pre,
    Text.all_space pre = true /\ s = pre ++ Text.lstrip s /\
    Text.starts_with_space (Text.lstrip s) = false.
Proof.
  induction s as [|c s (pre & Hp & Hs & Hl)].
  - exists "". repeat split.
  - simpl. destruct (Text.is_space c) eqn:Ec.
    + exists (String c pre). simpl. rewrite Ec, Hp. repeat split; [|exact Hl].
      now rewrite <- Hs.
    + exists "". simpl. now rewrite Ec.
Qed.

Lemma rstrip_splits (s : string) :
  exists post,
    Text.all_space post = true /\ s = Text.rstrip s ++ post /\
    Text.ends_with_space (Text.rstrip s) = false.
Proof.
  induction s as [|c s (post & Hp & Hs & Hl)].
  - exists "". repeat split.
  - simpl. destruct (Text.rstrip s) as [|d r] eqn:Er.
    + destruct (Text.is_space c) eqn:Ec.
      * exists (String c post). simpl in *. rewrite Ec, Hp. repeat split.
        now rewrite <- Hs.
      * exists post. simpl in *. rewrite Ec. repeat split; [exact Hp|].
        now rewrite <- Hs.
    + exists post. split; [exact Hp|]. split.
      * simpl. f_equal. exact Hs.
      * exact Hl.
Qed.

Lemma rstrip_keeps_start (s : string) :
  Text.starts_with_space s = false ->
  Text.starts_with_space (Text.rstrip s) = false.
Proof.
  destruct s as [|c s]; simpl; [reflexivity|]. intros Hc.
  destruct (Text.rstrip s); [now rewrite Hc | exact Hc].
Qed.

End StripShape.

(** X22: the path the entry point hands to [process_folder_csvs] is the
    answer without the whitespace at its two ends: the answer is that
    path between two runs of whitespace, and the path neither begins nor
    ends with whitespace. *)
Theorem entry_point_strips_the_answer (w : World) (typed : string) :
  exists pre folder_path post,
    typed = pre ++ folder_path ++ post /\
    Text.all_space pre = true /\ Text.all_space post = true /\
    Text.starts_with_space folder_path = false /\
    Text.ends_with_space folder_path = false /\
    main w typed = (prompt, process_folder_csvs w folder_path).
Proof.
  destruct (lstrip_splits typed) as (pre & Hpre & Ht & Hs).
  destruct (rstrip_splits (Text.lstrip typed)) as (post & Hpost & Hl & He).
  exists pre, (Text.strip typed), post. unfold Text.strip.
  repeat split; try assumption.
  - rewrite <- Hl. exact Ht.
  - now apply rstrip_keeps_start.
Qed.
